(** * FRA accident data pull: fetch, filter, export

    A shallow embedding of [notebooks/fra_data_pull.ipynb].  The notebook is
    a linear script of four code cells:

    - cell 3 pages through a REST endpoint with [$limit]/[$offset] and
      accumulates the records in [all_data], then builds a DataFrame;
    - cell 4 drops the rows whose [primaryaccidentcausecode] is a key of the
      cause-code table and projects to [features_to_analyze];
    - cell 5 converts the [date] column, reads the clock once and keeps the
      rows of the last [365*10] days;
    - cell 6 writes the frame to a CSV file without the index.

    The outside world (HTTP server, wall clock, pandas' date parser and cell
    formatter) is an environment [Env]; what the script changes (the log of
    HTTP calls, the number of clock reads, the printed messages, the files)
    is a [World] threaded through a small state-and-exception monad. *)

From stdpp Require Import gmap strings list fin_maps pretty.

Local Open Scope Z_scope.
Local Open Scope nat_scope.

(** ** Data model *)

(** A JSON scalar as it sits in a DataFrame cell.  [VNull] stands for every
    pandas null: JSON [null] (Python [None]), the [NaN] that fills a cell no
    record supplied, and the [NaT] of a datetime column.  [VTimestamp] counts
    microseconds since the epoch, the resolution of [datetime.today()]. *)
Inductive value :=
  | VNull
  | VStr (s : string)
  | VNum (n : Z)
  | VTimestamp (t : Z).

Global Instance value_eq_dec : EqDecision value.
Proof. solve_decision. Defined.

(** One accident report: a Python dict decoded from a JSON object. *)
Abbreviation record := (gmap string value).

Record Request := { req_limit : nat; req_offset : nat }.

Record Response := { status_code : Z; json : list record }.

Global Instance Request_eq_dec : EqDecision Request.
Proof. solve_decision. Defined.

(** Messages of the two [print] calls: the status of a failed request, and
    the minimum and maximum of the filtered [date] column, of which the
    message shows the calendar dates. *)
Inductive message :=
  | FetchFailed (status : Z)
  | DateRange (date_min date_max : value).

(** A CSV file as its logical rows of fields, header first. *)
Abbreviation csv := (list (list string)).

(** Exceptions the script can die of. *)
Inductive exn :=
  | KeyError (missing : list string)
  | ParserError
  | ValueError.

Record Env := {
  (** [server k req]: the response to [req] when [k] calls were made before *)
  server : nat → Request → Response;
  (** [clock k]: the reading of [datetime.today()] after [k] earlier reads *)
  clock : nat → Z;
  (** [pd.to_datetime] on the cells of a column: [None] when it raises,
      otherwise a timestamp or [NaT] (here [None]) for each cell *)
  parse_dates : list value → option (list (option Z));
  (** the text [to_csv] writes for a cell *)
  format_value : value → string
}.

Record World := {
  http_log : list (Request * Response);
  clock_reads : nat;
  stdout : list message;
  files : gmap string csv
}.

(** ** The monad of the script *)

Inductive res (A : Type) :=
  | Ok (a : A)
  | Raise (e : exn)
  | OutOfFuel.
Arguments Ok {A} a.
Arguments Raise {A} e.
Arguments OutOfFuel {A}.

Definition M (A : Type) : Type := Env → World → res A * World.

Global Instance M_ret : MRet M := λ A a _ w, (Ok a, w).

Global Instance M_bind : MBind M := λ A B f m env w,
  match m env w with
  | (Ok a, w') => f a env w'
  | (Raise e, w') => (Raise e, w')
  | (OutOfFuel, w') => (OutOfFuel, w')
  end.

Definition raise {A} (e : exn) : M A := λ _ w, (Raise e, w).

Definition out_of_fuel {A} : M A := λ _ w, (OutOfFuel, w).

Definition lift_res {A} (r : res A) : M A := λ _ w, (r, w).

Definition ask : M Env := λ env w, (Ok env, w).

(** [requests.get(query_url)] *)
Definition requests_get (req : Request) : M Response := λ env w,
  let response := server env (length (http_log w)) req in
  (Ok response,
   {| http_log := http_log w ++ [(req, response)];
      clock_reads := clock_reads w;
      stdout := stdout w;
      files := files w |}).

(** [datetime.today()] *)
Definition datetime_today : M Z := λ env w,
  (Ok (clock env (clock_reads w)),
   {| http_log := http_log w;
      clock_reads := S (clock_reads w);
      stdout := stdout w;
      files := files w |}).

Definition print (msg : message) : M unit := λ _ w,
  (Ok tt,
   {| http_log := http_log w;
      clock_reads := clock_reads w;
      stdout := stdout w ++ [msg];
      files := files w |}).

(** [open(path, "w")] and write: the old content is replaced. *)
Definition write_file (path : string) (content : csv) : M unit := λ _ w,
  (Ok tt,
   {| http_log := http_log w;
      clock_reads := clock_reads w;
      stdout := stdout w;
      files := <[path := content]> (files w) |}).

(** ** Cell 3: the paginated fetch *)

Definition limit : nat := 1000.

(** The [while True] loop; [fuel] bounds the number of iterations.  The
    page size and the running offset are arguments, so that the loop can be
    studied for any [limit]. *)
Fixpoint fetch_loop (fuel : nat) (limit offset : nat) (all_data : list record)
  : M (list record) :=
  match fuel with
  | O => out_of_fuel
  | S fuel' =>
    response ← requests_get {| req_limit := limit; req_offset := offset |};
    if bool_decide (status_code response = 200%Z) then
      let data := json response in
      match data with
      | [] => mret all_data
      | _ :: _ => fetch_loop fuel' limit (offset + limit) (all_data ++ data)
      end
    else
      _ ← print (FetchFailed (status_code response));
      mret all_data
  end.

Definition fetch_all (fuel : nat) : M (list record) :=
  fetch_loop fuel limit 0 [].

(** A server over a stable dataset that honours [$limit] and [$offset]. *)
Definition mock_source (data : list record) : nat → Request → Response :=
  λ _ req,
    {| status_code := 200;
       json := take (req_limit req) (drop (req_offset req) data) |}.

(** One request for the whole dataset, without pagination. *)
Definition single_fetch (srv : nat → Request → Response) (n : nat)
  : list record :=
  json (srv 0 {| req_limit := n; req_offset := 0 |}).

Definition ceil_div (n p : nat) : nat := (n + p - 1) / p.

(** The calls a run from [offset] makes against [mock_source data]. *)
Fixpoint mock_calls (data : list record) (limit offset n : nat)
  : list (Request * Response) :=
  match n with
  | O => []
  | S n' =>
    let req := {| req_limit := limit; req_offset := offset |} in
    (req, mock_source data 0 req) :: mock_calls data limit (offset + limit) n'
  end.

Definition add_calls (w : World) (calls : list (Request * Response)) : World :=
  {| http_log := http_log w ++ calls;
     clock_reads := clock_reads w;
     stdout := stdout w;
     files := files w |}.

Definition add_stdout (w : World) (msgs : list message) : World :=
  {| http_log := http_log w;
     clock_reads := clock_reads w;
     stdout := stdout w ++ msgs;
     files := files w |}.


(** The [j]-th request (counted from 0) of a loop started at [offset], and
    the response the server gives it when [n0] calls were made before the
    loop started.  They describe the run as long as the loop keeps going. *)
Definition loop_request (limit offset j : nat) : Request :=
  {| req_limit := limit; req_offset := offset + j * limit |}.

Definition loop_response (env : Env) (n0 limit offset j : nat) : Response :=
  server env (n0 + j) (loop_request limit offset j).

Definition loop_call (env : Env) (n0 limit offset j : nat)
  : Request * Response :=
  (loop_request limit offset j, loop_response env n0 limit offset j).

(** Call number [k], counted from 1 as in a test log, of a run of the whole
    loop from offset 0 in world [w]. *)
Definition call (env : Env) (w : World) (limit k : nat) : Request * Response :=
  loop_call env (length (http_log w)) limit 0 (k - 1).

(** ** DataFrames *)

(** A frame is its column labels and its rows; a row carries its index
    label, which for a frame built from a list is its position and which
    later steps never renumber. *)
Record DataFrame := { columns : list string; rows : list (nat * record) }.

(** The cell of a row under a column: null ([NaN]) where the record has no
    such key. *)
Definition cell (r : record) (c : string) : value := default VNull (r !! c).

(** [pd.DataFrame(all_data)]: the columns are the keys that occur in some
    record.  pandas lists them by first appearance; a [gmap] has no key
    order, so within one record they come in the map's order, which no
    later step reads (the projection imposes its own order).

    A cell holds the value as it was fetched.  This is what pandas keeps for
    strings and nulls; a number it may store in the column's numeric type
    (an integer in a column with a gap becomes a float), which is not
    modelled: the statements below compare the cells of a frame with the
    fetched record on strings and nulls only. *)
Definition DataFrame_of (all_data : list record) : DataFrame :=
  {| columns := remove_dups (all_data ≫= λ r, (map_to_list r).*1);
     rows := imap (λ i r, (i, r)) all_data |}.

Global Instance res_ret : MRet res := λ A a, Ok a.

Global Instance res_bind : MBind res := λ A B f r,
  match r with
  | Ok a => f a
  | Raise e => Raise e
  | OutOfFuel => OutOfFuel
  end.

(** [df[c]]: the column as a Series, [KeyError] when there is none. *)
Definition getitem (df : DataFrame) (c : string) : res (list value) :=
  if decide (c ∈ columns df) then Ok ((λ ir, cell ir.2 c) <$> rows df)
  else Raise (KeyError [c]).

(** [df[mask]] for a boolean Series over the same index. *)
Definition boolean_index (df : DataFrame) (mask : list bool) : DataFrame :=
  {| columns := columns df;
     rows := (filter (λ p, p.2 = true) (zip (rows df) mask)).*1 |}.

(** [df[cols]] for a list of labels: [KeyError] naming the labels that are
    not columns, otherwise the frame cut down to [cols] in that order. *)
Definition getitem_list (df : DataFrame) (cols : list string) : res DataFrame :=
  match filter (λ c, c ∉ columns df) cols with
  | [] =>
    Ok {| columns := cols;
          rows := (λ ir, (ir.1, filter (λ kv, kv.1 ∈ cols) ir.2)) <$> rows df |}
  | missing => Raise (KeyError missing)
  end.

(** [df[c] = vals] *)
Definition setitem (df : DataFrame) (c : string) (vals : list value)
  : res DataFrame :=
  if decide (length vals = length (rows df)) then
    Ok {| columns := if decide (c ∈ columns df) then columns df
                     else columns df ++ [c];
          rows := zip_with (λ ir v, (ir.1, <[c := v]> ir.2)) (rows df) vals |}
  else Raise ValueError.

(** ** Cell 4: exclusion and projection *)

(** [list(primary_accident_cause_codes.keys())]; the table itself lives in
    [primaryAccidentCodesLibrary], a mapping of code strings to labels. *)
Definition codes_list (primary_accident_cause_codes : gmap string string)
  : list string :=
  (map_to_list primary_accident_cause_codes).*1.

(** [Series.isin(codes_list)] on one cell.  The codes are strings, so only a
    string cell can be one of them. *)
Definition isin (codes : list string) (v : value) : bool :=
  match v with
  | VStr s => bool_decide (s ∈ codes)
  | _ => false
  end.

Definition features_to_analyze : list string :=
  ["reportingrailroadcode"; "accidentnumber"; "date"; "time"; "accidenttype";
   "hazmatreleasedcars"; "station"; "stateabbr"; "temperature";
   "visibility_code"; "visibility"; "weathercondition"; "tracktype";
   "equipmenttype"; "trainspeed"; "equipmentdamagecost"; "trackdamagecost";
   "totaldamagecost"; "primaryaccidentcausecode"; "latitude";
   "longitude"]%string.

(** [df[~df['primaryaccidentcausecode'].isin(codes_list)].copy()] *)
Definition exclusion (codes : list string) (df : DataFrame) : res DataFrame :=
  col ← getitem df "primaryaccidentcausecode";
  mret (boolean_index df ((λ v, negb (isin codes v)) <$> col)).

Definition cell4 (primary_accident_cause_codes : gmap string string)
    (df : DataFrame) : res DataFrame :=
  let codes_list := codes_list primary_accident_cause_codes in
  non_track_accidents_df ← exclusion codes_list df;
  getitem_list non_track_accidents_df features_to_analyze.

(** ** Cell 5: date conversion and the ten-year window *)

(** One day in microseconds. *)
Definition day : Z := 86400000000.

Definition timedelta (days : Z) : Z := (days * day)%Z.

Definition timestamp_cell (t : option Z) : value :=
  match t with
  | Some z => VTimestamp z
  | None => VNull
  end.

(** [non_track_accidents_df['date'] = pd.to_datetime(...)] *)
Definition to_datetime (env : Env) (col : list value) : res (list value) :=
  match parse_dates env col with
  | Some parsed => Ok (timestamp_cell <$> parsed)
  | None => Raise ParserError
  end.

(** [cell >= cutoff] on a datetime column: false on [NaT].  Cell 5 compares
    the [date] column after its conversion, when it holds timestamps and
    [NaT] only.  Timestamps are naive instants, as [datetime.today()] is; a
    column that converts to timezone-aware timestamps, on which pandas
    refuses the comparison, is outside the model, so the statements about
    cell 5 speak of the runs that succeed and of the errors raised before
    the comparison. *)
Definition ge_datetime (cutoff : Z) (v : value) : bool :=
  match v with
  | VTimestamp t => bool_decide (cutoff ≤ t)%Z
  | _ => false
  end.

Definition ten_years_ago (today : Z) : Z := (today - timedelta (365 * 10))%Z.

(** [df[df['date'] >= ten_years_ago]] with the clock reading [today]. *)
Definition recency_filter (today : Z) (df : DataFrame) : res DataFrame :=
  col ← getitem df "date";
  mret (boolean_index df (ge_datetime (ten_years_ago today) <$> col)).

Definition timestamps (col : list value) : list Z :=
  omap (λ v, match v with VTimestamp t => Some t | _ => None end) col.

(** [Series.min()] and [Series.max()] of a datetime column: nulls are
    skipped, and the result is [NaT] when nothing is left. *)
Definition series_min (col : list value) : value :=
  match timestamps col with
  | [] => VNull
  | t :: ts => VTimestamp (foldr Z.min t ts)
  end.

Definition series_max (col : list value) : value :=
  match timestamps col with
  | [] => VNull
  | t :: ts => VTimestamp (foldr Z.max t ts)
  end.

Definition cell5 (df : DataFrame) : M DataFrame :=
  env ← ask;
  col ← lift_res (getitem df "date");
  parsed ← lift_res (to_datetime env col);
  df ← lift_res (setitem df "date" parsed);
  today ← datetime_today;
  df ← lift_res (recency_filter today df);
  col ← lift_res (getitem df "date");
  _ ← print (DateRange (series_min col) (series_max col));
  mret df.

(** ** Cell 6: export *)

(** [df.to_csv(path, index=index)]: the header and one line per row; with
    [index] the index label is written as a first, unnamed column.  The
    text of a cell is left to [fmt]; the statements about the file are about
    its header and its shape. *)
Definition to_csv (fmt : value → string) (index : bool) (df : DataFrame) : csv :=
  let header := (if index then [EmptyString] else []) ++ columns df in
  let line (ir : nat * record) :=
    (if index then [pretty ir.1] else []) ++
    ((λ c, fmt (cell ir.2 c)) <$> columns df) in
  header :: (line <$> rows df).

Definition csv_path : string := "non_track_accidents_last_10_years.csv".

Definition cell6 (df : DataFrame) : M unit :=
  env ← ask;
  write_file csv_path (to_csv (format_value env) false df).

(** ** The notebook *)

(** Cells 4 and 5: the row filter. *)
Definition row_filter (primary_accident_cause_codes : gmap string string)
    (df : DataFrame) : M DataFrame :=
  non_track_accidents_df ← lift_res (cell4 primary_accident_cause_codes df);
  cell5 non_track_accidents_df.

Definition notebook (fuel : nat)
    (primary_accident_cause_codes : gmap string string) : M DataFrame :=
  all_data ← fetch_all fuel;
  let df := DataFrame_of all_data in
  non_track_accidents_df ← row_filter primary_accident_cause_codes df;
  _ ← cell6 non_track_accidents_df;
  mret non_track_accidents_df.

(** The row a record becomes in cell 4, and the frame cell 5 filters: the
    [date] cells replaced by what [pd.to_datetime] made of them. *)
Definition project_row (cols : list string) (ir : nat * record) : nat * record :=
  (ir.1, filter (λ kv, kv.1 ∈ cols) ir.2).

Definition set_date (ir : nat * record) (t : option Z) : nat * record :=
  (ir.1, <["date"%string := timestamp_cell t]> ir.2).

Definition recent (today : Z) (ir : nat * record) : bool :=
  ge_datetime (ten_years_ago today) (cell ir.2 "date").

Definition not_excluded (codes : list string) (ir : nat * record) : bool :=
  negb (isin codes (cell ir.2 "primaryaccidentcausecode")).

(** ** A sample run *)

(** The frame of a successful step. *)
Definition frame_of (r : res DataFrame) : DataFrame :=
  match r with
  | Ok df => df
  | _ => {| columns := []; rows := [] |}
  end.

(** A record that has every projected column. *)
Definition sample_record (code date : string) : record :=
  <["date"%string := VStr date]>
    (<["primaryaccidentcausecode"%string := VStr code]>
       (list_to_map ((λ c, (c, VStr c)) <$> features_to_analyze))).

Definition sample_table : gmap string string :=
  {[ "T001"%string := "Roadbed settled or soft"%string ]}.

(** Noon of 2024-12-10, day 20067 of the epoch. *)
Definition sample_today : Z := 20067 * day + 43200000000.

(** Four fetched records: one with an excluded code, one stamped exactly
    3650 days before [sample_today], one stamped 3651 days before it, and a
    recent one that has no [latitude]. *)
Definition sample_all_data : list record :=
  [ sample_record "T001" "2024-08-31T00:00:00.000";
    sample_record "H302" "2014-12-13T12:00:00.000";
    sample_record "H302" "2014-12-12T12:00:00.000";
    delete "latitude"%string (sample_record "M101" "2024-08-31T00:00:00.000") ].

Definition sample_dates : gmap string Z :=
  {[ "2024-08-31T00:00:00.000"%string := (19966 * day)%Z;
     "2014-12-13T12:00:00.000"%string := (16417 * day + 43200000000)%Z;
     "2014-12-12T12:00:00.000"%string := (16416 * day + 43200000000)%Z ]}.

(** A parser that knows the dates of [known] and turns null into [NaT]. *)
Definition sample_parse (known : gmap string Z) (col : list value)
  : option (list (option Z)) :=
  mapM (λ v, match v with
             | VNull => Some None
             | VStr s => Some <$> known !! s
             | _ => None
             end) col.

Definition sample_format (v : value) : string :=
  match v with
  | VNull => EmptyString
  | VStr s => s
  | VNum n => pretty n
  | VTimestamp t => pretty t
  end.

(** The clock moves on by a microsecond at every reading. *)
Definition sample_env : Env :=
  {| server := mock_source sample_all_data;
     clock := λ k, (sample_today + Z.of_nat k)%Z;
     parse_dates := sample_parse sample_dates;
     format_value := sample_format |}.

(** The same, but the server breaks down from the third call on. *)
Definition sample_failing_env : Env :=
  {| server := λ k req,
       if decide (k < 2) then mock_source sample_all_data k req
       else {| status_code := 503; json := [] |};
     clock := clock sample_env;
     parse_dates := parse_dates sample_env;
     format_value := format_value sample_env |}.

Definition sample_world : World :=
  {| http_log := []; clock_reads := 0; stdout := []; files := ∅ |}.

Definition sample_frame : DataFrame := DataFrame_of sample_all_data.

Definition sample_kept : DataFrame :=
  frame_of (exclusion (codes_list sample_table) sample_frame).

Definition sample_projected : DataFrame :=
  frame_of (cell4 sample_table sample_frame).

Definition sample_filtered : res DataFrame * World :=
  row_filter sample_table sample_frame sample_env sample_world.

(** A dataset in which no record carries a cause code. *)
Definition codeless_record : record :=
  {[ "date"%string := VStr "2024-08-31T00:00:00.000" ]}.

Definition sample_converted : res DataFrame * World :=
  cell5 sample_projected sample_env sample_world.

(** The rows of [sample_projected] that sit on the two sides of the cutoff. *)
Definition sample_boundary_row : nat * record :=
  project_row features_to_analyze
    (1, sample_record "H302" "2014-12-13T12:00:00.000").

Definition sample_old_row : nat * record :=
  project_row features_to_analyze
    (2, sample_record "H302" "2014-12-12T12:00:00.000").

(** ** Other servers *)

(** A server over a stable dataset that never sends more than [cap] records
    in one page, whatever [$limit] asks for. *)
Definition capped_source (cap : nat) (data : list record)
  : nat → Request → Response :=
  λ _ req,
    {| status_code := 200;
       json := take (req_limit req `min` cap) (drop (req_offset req) data) |}.

(** A server that ignores [$offset] and sends the same page every time. *)
Definition repeating_source (page : list record) : nat → Request → Response :=
  λ _ _, {| status_code := 200; json := page |}.

Definition with_server (srv : nat → Request → Response) (env : Env) : Env :=
  {| server := srv;
     clock := clock env;
     parse_dates := parse_dates env;
     format_value := format_value env |}.

(** A server that answers like [srv] for its first [n] calls and with
    status 503 afterwards. *)
Definition failing_after (n : nat) (srv : nat → Request → Response)
  : nat → Request → Response :=
  λ k req,
    if decide (k < n) then srv k req else {| status_code := 503; json := [] |}.

(** ** More sample runs *)

(** The sample server behind a proxy that cuts every page to two records. *)
Definition sample_capped_env : Env :=
  with_server (capped_source 2 sample_all_data) sample_env.

(** A server that sends the first sample record whatever is asked. *)
Definition sample_repeating_env : Env :=
  with_server (repeating_source [sample_record "H302" "2014-12-13T12:00:00.000"])
    sample_env.

(** A server with nothing to send. *)
Definition sample_empty_env : Env := with_server (mock_source []) sample_env.

(** The sample server, down from the second call on. *)
Definition sample_down_env : Env :=
  with_server (failing_after 1 (mock_source sample_all_data)) sample_env.

(** An environment whose date parser knows no date at all. *)
Definition sample_unparsable_env : Env :=
  {| server := server sample_env;
     clock := clock sample_env;
     parse_dates := sample_parse ∅;
     format_value := format_value sample_env |}.

(** A world in which an earlier run left its CSV. *)
Definition sample_stale_world : World :=
  {| http_log := [];
     clock_reads := 0;
     stdout := [];
     files := {[ csv_path := [["date"%string]; ["2014-11-16"%string]] ]} |}.

(** Two rows stamped at midnight, 3650 and 3649 days before the day of
    [sample_today]. *)
Definition sample_midnight_frame : DataFrame :=
  {| columns := ["date"%string];
     rows := [ (0, {[ "date"%string := VTimestamp (20067 * day - 3650 * day) ]});
               (1, {[ "date"%string := VTimestamp (20067 * day - 3649 * day) ]}) ] |}.

Definition sample_partial : res DataFrame * World :=
  row_filter sample_table
    (DataFrame_of
       (concat ((λ k, json (call sample_down_env sample_world limit k).2)
                  <$> seq 1 1)))
    sample_down_env
    (add_stdout
       (add_calls sample_world (call sample_down_env sample_world limit <$> seq 1 2))
       [FetchFailed (status_code (call sample_down_env sample_world limit 2).2)]).

Definition sample_notebook : res DataFrame * World :=
  notebook 5 sample_table sample_env sample_world.

(** Two records dated by calendar day, 3650 and 3649 days before the day of
    [sample_today], and a parser that reads their dates as midnight. *)
Definition sample_day_frame : DataFrame :=
  DataFrame_of
    [ {[ "date"%string := VStr "2014-12-13T00:00:00.000" ]};
      {[ "date"%string := VStr "2014-12-14T00:00:00.000" ]} ].

Definition sample_day_dates : gmap string Z :=
  {[ "2014-12-13T00:00:00.000"%string := (20067 * day - 3650 * day)%Z;
     "2014-12-14T00:00:00.000"%string := (20067 * day - 3649 * day)%Z ]}.

Definition sample_day_env : Env :=
  {| server := server sample_env;
     clock := clock sample_env;
     parse_dates := sample_parse sample_day_dates;
     format_value := format_value sample_env |}.

Definition sample_day_converted : res DataFrame * World :=
  cell5 sample_day_frame sample_day_env sample_world.
(** ** Facts about the fetch loop *)

Lemma add_calls_nil w : add_calls w [] = w.
Proof. destruct w; unfold add_calls; simpl. by rewrite app_nil_r. Qed.

Lemma add_calls_app w cs1 cs2 :
  add_calls (add_calls w cs1) cs2 = add_calls w (cs1 ++ cs2).
Proof. unfold add_calls; simpl. by rewrite app_assoc. Qed.

Lemma requests_get_eq req env w :
  requests_get req env w =
  (Ok (server env (length (http_log w)) req),
   add_calls w [(req, server env (length (http_log w)) req)]).
Proof. reflexivity. Qed.

(** One turn of the loop: issue the request and look at the response. *)
Ltac loop_step :=
  cbn [Nat.add fetch_loop]; unfold mbind, M_bind at 1;
  rewrite requests_get_eq.

Lemma ceil_div_0 p : 1 ≤ p → ceil_div 0 p = 0.
Proof.
  intros Hp. unfold ceil_div. apply Nat.div_small. lia.
Qed.

Lemma ceil_div_step n p :
  1 ≤ p → 1 ≤ n → ceil_div n p = S (ceil_div (n - p) p).
Proof.
  intros Hp Hn. unfold ceil_div.
  destruct (decide (n ≤ p)) as [Hle|Hgt].
  - replace (n - p + p - 1) with (p - 1) by lia.
    rewrite (Nat.div_small (p - 1) p) by lia.
    replace (n + p - 1) with ((n - 1) + 1 * p) by lia.
    rewrite Nat.div_add by lia.
    rewrite Nat.div_small by lia. done.
  - replace (n + p - 1) with ((n - p + p - 1) + 1 * p) by lia.
    rewrite Nat.div_add by lia. lia.
Qed.

Lemma mock_calls_length data P off n : length (mock_calls data P off n) = n.
Proof. revert off. induction n as [|n IH]; intros off; simpl; [done|]. by rewrite IH. Qed.

(** The run against a mock source, from any offset the loop can reach. *)
Lemma fetch_loop_mock_from data P env :
  1 ≤ P → server env = mock_source data →
  ∀ fuel off w,
    ceil_div (length data - off) P + 1 ≤ fuel →
    fetch_loop fuel P off (take off data) env w =
    (Ok data,
     add_calls w (mock_calls data P off (ceil_div (length data - off) P + 1))).
Proof.
  intros HP Hsrv fuel.
  induction fuel as [|fuel IH]; intros off w Hfuel; [lia|].
  loop_step. rewrite Hsrv.
  cbn [mock_source status_code json req_limit req_offset].
  rewrite bool_decide_eq_true_2 by done.
  destruct (decide (length data ≤ off)) as [Hend|Hmore].
  - rewrite drop_ge by done. rewrite take_nil.
    replace (length data - off) with 0 by lia.
    rewrite ceil_div_0 by done. cbn [Nat.add mock_calls].
    unfold mret, M_ret, mock_source. by rewrite take_ge by done.
  - destruct (take P (drop off data)) as [|r page] eqn:Hpage.
    { apply (f_equal length) in Hpage. rewrite length_take, length_drop in Hpage.
      simpl in Hpage. lia. }
    rewrite <- Hpage. rewrite take_take_drop.
    rewrite (ceil_div_step (length data - off) P) by lia.
    rewrite IH.
    + rewrite add_calls_app. cbn [app Nat.add mock_calls].
      replace (length data - off - P) with (length data - (off + P)) by lia.
      done.
    + rewrite (ceil_div_step (length data - off) P) in Hfuel by lia.
      replace (length data - (off + P)) with (length data - off - P) by lia.
      lia.
Qed.

Lemma ceil_div_le n p i : 1 ≤ p → ceil_div n p ≤ i ↔ n ≤ i * p.
Proof.
  intros Hp. unfold ceil_div. split; intros H.
  - destruct (decide (n ≤ i * p)) as [|Hlt]; [done|].
    assert (S i ≤ (n + p - 1) / p); [|lia].
    apply Nat.div_le_lower_bound; lia.
  - assert ((n + p - 1) / p < S i); [|lia].
    apply Nat.Div0.div_lt_upper_bound; lia.
Qed.

Lemma mock_calls_lookup data P off n i c :
  mock_calls data P off n !! i = Some c ↔
  i < n ∧ c = (loop_request P off i, mock_source data 0 (loop_request P off i)).
Proof.
  revert off i. induction n as [|n IH]; intros off i; simpl.
  - split; [done|]. intros [? _]. lia.
  - destruct i as [|i]; simpl.
    + unfold loop_request. rewrite Nat.add_0_r. split.
      * intros [= <-]. split; [lia|done].
      * by intros [_ ->].
    + rewrite IH. unfold loop_request.
      replace (off + P + i * P) with (off + (P + i * P)) by lia.
      split; intros [? ->]; (split; [lia|done]).
Qed.

Lemma mock_calls_requests data P off n :
  (mock_calls data P off n).*1 = loop_request P off <$> seq 0 n.
Proof.
  apply list_eq. intros i. rewrite !list_lookup_fmap.
  destruct (mock_calls data P off n !! i) as [c|] eqn:Hc.
  - apply mock_calls_lookup in Hc as [Hi ->]. simpl.
    by rewrite lookup_seq_lt.
  - destruct (decide (i < n)) as [Hi|Hi].
    + assert (is_Some (mock_calls data P off n !! i)) as [? Hs]; [|congruence].
      apply lookup_lt_is_Some. by rewrite mock_calls_length.
    + by rewrite lookup_seq_ge by lia.
Qed.

Lemma mock_calls_pages data P off n :
  concat (json <$> (mock_calls data P off n).*2) = take (n * P) (drop off data).
Proof.
  revert off. induction n as [|n IH]; intros off; [done|].
  cbn [mock_calls fmap list_fmap concat snd json mock_source req_limit req_offset].
  change (list_fmap _ _ json (list_fmap _ _ snd ?l)) with (json <$> l.*2).
  rewrite IH. rewrite <- (drop_drop data P off).
  rewrite take_take_drop. done.
Qed.

Lemma mock_page_empty data P off :
  1 ≤ P → json (mock_source data 0 (loop_request P 0 off)) = [] ↔
          length data ≤ off * P.
Proof.
  intros HP. unfold mock_source, loop_request; simpl. split.
  - intros H. apply (f_equal length) in H.
    rewrite length_take, length_drop in H. simpl in H. lia.
  - intros H. by rewrite drop_ge, take_nil.
Qed.

(** A run that ends without a failure message ended on an empty page of a
    successful response; the loop itself never raises. *)
Lemma fetch_loop_terminal env fuel P off acc w d w' :
  fetch_loop fuel P off acc env w = (Ok d, w') →
  ∃ calls req resp,
    http_log w' = http_log w ++ calls ++ [(req, resp)] ∧
    ((status_code resp = 200%Z ∧ json resp = [] ∧ stdout w' = stdout w) ∨
     (status_code resp ≠ 200%Z ∧
      stdout w' = stdout w ++ [FetchFailed (status_code resp)])).
Proof.
  revert off acc w. induction fuel as [|fuel IH]; intros off acc w; [done|].
  loop_step.
  set (req := {| req_limit := P; req_offset := off |}).
  set (resp := server env (length (http_log w)) req).
  case_bool_decide as Hst.
  - destruct (json resp) as [|r page] eqn:Hpage.
    + intros [= <- <-]. exists [], req, resp. split; [done|].
      left. by rewrite Hpage.
    + intros Hrun. apply IH in Hrun as (calls & req' & resp' & Hlog & Hend).
      exists ((req, resp) :: calls), req', resp'. split; [|done].
      rewrite Hlog. simpl. by rewrite <- app_assoc.
  - unfold mbind, M_bind, print, mret, M_ret. simpl.
    intros [= <- <-]. exists [], req, resp. split; [done|]. by right.
Qed.

(** ** C2: number of calls against a mock source *)

(** C2. Against a mock source of N records served in offset order with page
    size P ≥ 1 the fetch loop terminates (any fuel of at least ⌈N/P⌉ + 1
    iterations gives a result), it issues exactly ⌈N/P⌉ + 1 GET calls, every
    response is a success, and the empty page is the last call and only the
    last call.  For any server at all, a run that ends without printing a
    failure ended on an empty page of a successful response. *)
Theorem fetch_mock_call_count data P env fuel w :
  1 ≤ P → server env = mock_source data →
  ceil_div (length data) P + 1 ≤ fuel →
  (∃ calls,
    fetch_loop fuel P 0 [] env w = (Ok data, add_calls w calls) ∧
    length calls = ceil_div (length data) P + 1 ∧
    (∀ i c, calls !! i = Some c →
       status_code c.2 = 200%Z ∧
       (json c.2 = [] ↔ i = ceil_div (length data) P))) ∧
  (∀ env' fuel' P' off acc w0 d w1,
    fetch_loop fuel' P' off acc env' w0 = (Ok d, w1) →
    stdout w1 = stdout w0 →
    ∃ req resp, last (http_log w1) = Some (req, resp) ∧
                status_code resp = 200%Z ∧ json resp = []).
Proof.
  intros HP Hsrv Hfuel. split.
  - exists (mock_calls data P 0 (ceil_div (length data) P + 1)).
    split; [|split].
    + pose proof (fetch_loop_mock_from data P env HP Hsrv fuel 0 w) as H.
      rewrite Nat.sub_0_r in H. by apply H.
    + apply mock_calls_length.
    + intros i c Hc. apply mock_calls_lookup in Hc as [Hi ->].
      split; [done|]. cbn [snd]. rewrite mock_page_empty by done.
      rewrite <- ceil_div_le by done. lia.
  - intros env' fuel' P' off acc w0 d w1 Hrun Hout.
    apply fetch_loop_terminal in Hrun as (calls & req & resp & Hlog & Hend).
    exists req, resp. rewrite Hlog, app_assoc, last_snoc.
    split; [done|]. destruct Hend as [(? & ? & _)|[_ Hbad]]; [done|].
    rewrite Hout in Hbad. apply (f_equal length) in Hbad.
    rewrite length_app in Hbad. simpl in Hbad. lia.
Qed.

(** ** C4: pagination is lossless *)

(** C4. Over a stable dataset and for every page size P ≥ 1, the loop asks
    for the offsets 0, P, 2P, ... (increasing, windows of P records that do
    not overlap), and both the accumulated result and the concatenation of
    the pages it received equal the answer to one unpaginated request for
    the whole dataset, which is the dataset itself. *)
Theorem pagination_lossless data P env fuel w :
  1 ≤ P → server env = mock_source data →
  ceil_div (length data) P + 1 ≤ fuel →
  ∃ calls,
    fetch_loop fuel P 0 [] env w =
      (Ok (single_fetch (mock_source data) (length data)), add_calls w calls) ∧
    calls.*1 = (λ k, {| req_limit := P; req_offset := k * P |})
                 <$> seq 0 (length calls) ∧
    concat (json <$> calls.*2) =
      single_fetch (mock_source data) (length data) ∧
    single_fetch (mock_source data) (length data) = data.
Proof.
  intros HP Hsrv Hfuel.
  assert (single_fetch (mock_source data) (length data) = data) as Hone.
  { unfold single_fetch, mock_source; simpl. by rewrite drop_0, take_ge. }
  rewrite Hone.
  exists (mock_calls data P 0 (ceil_div (length data) P + 1)).
  split; [|split; [|split]]; [| | |done].
  - pose proof (fetch_loop_mock_from data P env HP Hsrv fuel 0 w) as H.
    rewrite Nat.sub_0_r in H. by apply H.
  - by rewrite mock_calls_requests, mock_calls_length.
  - rewrite mock_calls_pages, drop_0. apply take_ge.
    apply ceil_div_le; [done|lia].
Qed.

(** ** C3: abort on the first failing response *)

Lemma loop_call_shift env n0 P off j :
  loop_call env (n0 + 1) P (off + P) j = loop_call env n0 P off (S j).
Proof.
  unfold loop_call, loop_response, loop_request.
  replace (n0 + 1 + j) with (n0 + S j) by lia.
  replace (off + P + j * P) with (off + S j * P) by lia. done.
Qed.

Lemma loop_call_0 env n0 P off :
  loop_call env n0 P off 0 =
  ({| req_limit := P; req_offset := off |},
   server env n0 {| req_limit := P; req_offset := off |}).
Proof.
  unfold loop_call, loop_response, loop_request.
  by rewrite !Nat.add_0_r.
Qed.

Lemma fmap_seq_shift {A} (f : nat → A) n :
  f <$> seq 0 (S n) = f 0 :: ((f ∘ S) <$> seq 0 n).
Proof. simpl. by rewrite <- fmap_S_seq, <- list_fmap_compose. Qed.

(** As long as the pages come back successful and non-empty the loop keeps
    going: after [K] such pages it is where a fresh loop would be at offset
    [off + K * P], with those pages accumulated and those calls logged. *)
Lemma fetch_loop_good_prefix env P K :
  ∀ fuel off acc w,
    (∀ j, j < K →
       status_code (loop_call env (length (http_log w)) P off j).2 = 200%Z ∧
       json (loop_call env (length (http_log w)) P off j).2 ≠ []) →
    fetch_loop (K + fuel) P off acc env w =
    fetch_loop fuel P (off + K * P)
      (acc ++ concat ((λ j, json (loop_call env (length (http_log w)) P off j).2)
                        <$> seq 0 K))
      env
      (add_calls w (loop_call env (length (http_log w)) P off <$> seq 0 K)).
Proof.
  induction K as [|K IH]; intros fuel off acc w Hgood.
  - cbn [Nat.add seq fmap list_fmap concat Nat.mul].
    by rewrite Nat.add_0_r, app_nil_r, add_calls_nil.
  - loop_step.
    destruct (Hgood 0 ltac:(lia)) as [Hst Hne].
    rewrite loop_call_0 in Hst, Hne. cbn [snd] in Hst, Hne.
    rewrite bool_decide_eq_true_2 by done.
    destruct (json _) as [|r page] eqn:Hpage; [done|].
    rewrite <- Hpage.
    set (c := ({| req_limit := P; req_offset := off |},
               server env (length (http_log w))
                 {| req_limit := P; req_offset := off |})).
    assert (length (http_log (add_calls w [c])) = length (http_log w) + 1)
      as Hlen by (simpl; by rewrite length_app).
    rewrite (fmap_seq_shift
               (λ j, json (loop_call env (length (http_log w)) P off j).2) K).
    rewrite (fmap_seq_shift (loop_call env (length (http_log w)) P off) K).
    rewrite IH.
    + rewrite Hlen, add_calls_app, loop_call_0.
      cbn [concat snd app]. rewrite <- app_assoc.
      replace (off + P + K * P) with (off + S K * P) by lia.
      f_equal; [do 3 f_equal|do 2 f_equal].
      * apply list_fmap_ext. intros ? j ?. unfold compose.
        by rewrite loop_call_shift.
      * apply list_fmap_ext. intros ? j ?. unfold compose.
        by rewrite loop_call_shift.
    + intros j Hj. rewrite Hlen, loop_call_shift. apply Hgood. lia.
Qed.

Lemma loop_calls_length env n0 P off K :
  length (loop_call env n0 P off <$> seq 0 K) = K.
Proof. by rewrite length_fmap, length_seq. Qed.

(** [K] good pages, then a failure: the loop stops there. *)
Lemma fetch_loop_fails_at env P K fuel off acc w :
  K < fuel →
  (∀ j, j < K →
     status_code (loop_call env (length (http_log w)) P off j).2 = 200%Z ∧
     json (loop_call env (length (http_log w)) P off j).2 ≠ []) →
  status_code (loop_call env (length (http_log w)) P off K).2 ≠ 200%Z →
  fetch_loop fuel P off acc env w =
  (Ok (acc ++ concat ((λ j, json (loop_call env (length (http_log w)) P off j).2)
                        <$> seq 0 K)),
   add_stdout
     (add_calls w (loop_call env (length (http_log w)) P off <$> seq 0 (S K)))
     [FetchFailed
        (status_code (loop_call env (length (http_log w)) P off K).2)]).
Proof.
  intros Hfuel Hgood Hbad.
  replace fuel with (K + S (fuel - S K)) by lia.
  rewrite fetch_loop_good_prefix by done.
  loop_step.
  cbn [http_log add_calls]. rewrite length_app, loop_calls_length.
  change (server env (length (http_log w) + K)
            {| req_limit := P; req_offset := off + K * P |})
    with (loop_call env (length (http_log w)) P off K).2.
  rewrite bool_decide_eq_false_2 by done.
  rewrite seq_S, fmap_app. cbn [Nat.add fmap list_fmap].
  unfold mbind, M_bind, print, mret, M_ret, add_stdout, add_calls.
  cbn. by rewrite <- app_assoc.
Qed.

(** [K] good pages, then an empty one: the loop is done, having made
    [K + 1] calls and printed nothing. *)
Lemma fetch_loop_ends_at env P K fuel off acc w :
  K < fuel →
  (∀ j, j < K →
     status_code (loop_call env (length (http_log w)) P off j).2 = 200%Z ∧
     json (loop_call env (length (http_log w)) P off j).2 ≠ []) →
  status_code (loop_call env (length (http_log w)) P off K).2 = 200%Z →
  json (loop_call env (length (http_log w)) P off K).2 = [] →
  fetch_loop fuel P off acc env w =
  (Ok (acc ++ concat ((λ j, json (loop_call env (length (http_log w)) P off j).2)
                        <$> seq 0 K)),
   add_calls w (loop_call env (length (http_log w)) P off <$> seq 0 (S K))).
Proof.
  intros Hfuel Hgood Hst Hempty.
  replace fuel with (K + S (fuel - S K)) by lia.
  rewrite fetch_loop_good_prefix by done.
  loop_step.
  cbn [http_log add_calls]. rewrite length_app, loop_calls_length.
  change (server env (length (http_log w) + K)
            {| req_limit := P; req_offset := off + K * P |})
    with (loop_call env (length (http_log w)) P off K).2.
  rewrite bool_decide_eq_true_2 by done. rewrite Hempty.
  rewrite seq_S, fmap_app. cbn [Nat.add fmap list_fmap].
  unfold mret, M_ret, add_calls. cbn. by rewrite <- app_assoc.
Qed.

Lemma call_S env w P j :
  call env w P (S j) = loop_call env (length (http_log w)) P 0 j.
Proof. unfold call. simpl. by rewrite Nat.sub_0_r. Qed.

(** C3. When call K (counted from 1) is the first response whose status is
    not 200 -- the calls before it succeeded and, the loop having gone on to
    call K, each brought a non-empty page -- the loop stops at call K: it
    made exactly the calls 1..K, printed the failing status, and returns as
    an ordinary value the concatenation of the pages of calls 1..K-1. *)
Theorem fetch_aborts_at_first_failure env w P K fuel :
  1 ≤ K → K ≤ fuel →
  (∀ k, 1 ≤ k < K →
     status_code (call env w P k).2 = 200%Z ∧ json (call env w P k).2 ≠ []) →
  status_code (call env w P K).2 ≠ 200%Z →
  fetch_loop fuel P 0 [] env w =
    (Ok (concat ((λ k, json (call env w P k).2) <$> seq 1 (K - 1))),
     add_stdout (add_calls w (call env w P <$> seq 1 K))
       [FetchFailed (status_code (call env w P K).2)]).
Proof.
  intros HK Hfuel Hgood Hbad.
  destruct K as [|K]; [lia|]. rewrite call_S in Hbad.
  rewrite (fetch_loop_fails_at env P K fuel 0 [] w); [|lia| |done].
  - replace (S K - 1) with K by lia. rewrite app_nil_l, call_S.
    rewrite <- !(fmap_S_seq 0), <- !list_fmap_compose.
    rewrite (list_fmap_ext (loop_call env (length (http_log w)) P 0)
               (call env w P ∘ S) (seq 0 (S K)))
      by (intros; unfold compose; by rewrite call_S).
    rewrite (list_fmap_ext
               (λ j, json (loop_call env (length (http_log w)) P 0 j).2)
               ((λ k, json (call env w P k).2) ∘ S) (seq 0 K))
      by (intros; unfold compose; by rewrite call_S).
    done.
  - intros j Hj. rewrite <- call_S. apply Hgood. lia.
Qed.

(** ** Facts about frames *)

Lemma mask_filter {A} (h : A → bool) (l : list A) :
  (filter (λ p, p.2 = true) (zip l (h <$> l))).*1 = filter (λ x, h x = true) l.
Proof.
  induction l as [|x l IH]; [done|].
  cbn [fmap list_fmap zip zip_with]. rewrite !filter_cons. cbn [snd].
  destruct (decide (h x = true)); cbn [fmap list_fmap fst]; by rewrite <- IH.
Qed.

Lemma boolean_index_rows df (f : value → bool) c :
  rows (boolean_index df (f <$> ((λ ir, cell ir.2 c) <$> rows df))) =
  filter (λ ir, f (cell ir.2 c) = true) (rows df).
Proof.
  unfold boolean_index; simpl. rewrite <- list_fmap_compose.
  apply (mask_filter (f ∘ (λ ir, cell ir.2 c))).
Qed.

Lemma getitem_Ok df c col :
  getitem df c = Ok col ↔
  c ∈ columns df ∧ col = (λ ir, cell ir.2 c) <$> rows df.
Proof.
  unfold getitem. case_decide; split; try done.
  - by intros [= <-].
  - by intros [_ ->].
  - by intros [? _].
Qed.

Lemma getitem_Raise df c e :
  getitem df c = Raise e ↔ (c ∉ columns df) ∧ e = KeyError [c].
Proof.
  unfold getitem. case_decide; split; try done.
  - by intros [? _].
  - by intros [= <-].
  - by intros [_ ->].
Qed.

Lemma DataFrame_of_columns all_data c :
  c ∈ columns (DataFrame_of all_data) ↔
  ∃ r : record, r ∈ all_data ∧ is_Some (r !! c).
Proof.
  unfold DataFrame_of; simpl. rewrite elem_of_remove_dups, list_elem_of_bind.
  split.
  - intros (r & Hc & Hr). exists r. split; [done|].
    apply list_elem_of_fmap in Hc as ([c' v] & -> & Hcv).
    apply elem_of_map_to_list in Hcv. by exists v.
  - intros (r & Hr & v & Hv). exists r. split; [|done].
    apply list_elem_of_fmap. exists (c, v). split; [done|].
    by apply elem_of_map_to_list.
Qed.

Lemma DataFrame_of_rows all_data i (r : record) :
  (i, r) ∈ rows (DataFrame_of all_data) ↔ all_data !! i = Some r.
Proof.
  unfold DataFrame_of; simpl. rewrite elem_of_lookup_imap. split.
  - by intros (j & r' & [= -> ->] & ?).
  - intros H. by exists i, r.
Qed.

Lemma DataFrame_of_index all_data :
  (rows (DataFrame_of all_data)).*1 = seq 0 (length all_data).
Proof.
  unfold DataFrame_of; simpl. rewrite fmap_imap.
  rewrite (imap_ext _ (λ i _, i)) by done.
  rewrite <- (list_fmap_id (seq 0 (length all_data))).
  apply (imap_seq_0 all_data id).
Qed.

(** What the exclusion step computes. *)
Lemma exclusion_Ok codes df out :
  exclusion codes df = Ok out ↔
  "primaryaccidentcausecode" ∈ columns df ∧
  out = {| columns := columns df;
           rows := filter (λ ir, not_excluded codes ir = true) (rows df) |}.
Proof.
  unfold exclusion, mbind, res_bind, mret, res_ret.
  destruct (getitem df "primaryaccidentcausecode") as [col| |] eqn:Hcol.
  - apply getitem_Ok in Hcol as [Hin ->].
    pose proof (boolean_index_rows df (λ v, negb (isin codes v))
                  "primaryaccidentcausecode") as Hrows.
    split.
    + intros [= <-]. split; [done|].
      unfold not_excluded. rewrite <- Hrows. by destruct df.
    + intros [_ ->]. f_equal. unfold not_excluded. rewrite <- Hrows.
      by destruct df.
  - apply getitem_Raise in Hcol as [Hnin _]. split; [done|]. by intros [? _].
  - unfold getitem in Hcol. by case_decide.
Qed.

Lemma exclusion_Raise codes df e :
  exclusion codes df = Raise e ↔
  ("primaryaccidentcausecode" ∉ columns df) ∧
  e = KeyError ["primaryaccidentcausecode"%string].
Proof.
  unfold exclusion, mbind, res_bind, mret, res_ret.
  destruct (getitem df "primaryaccidentcausecode") as [col| |] eqn:Hcol.
  - apply getitem_Ok in Hcol as [Hin ->]. split; [done|]. by intros [? _].
  - apply getitem_Raise in Hcol as [Hnin ->]. split.
    + by intros [= <-].
    + by intros [_ ->].
  - unfold getitem in Hcol. by case_decide.
Qed.

Lemma cell_restrict (cols : list string) (r : record) c :
  cell (filter (λ kv, kv.1 ∈ cols) r) c =
  if decide (c ∈ cols) then cell r c else VNull.
Proof.
  unfold cell. case_decide as Hc.
  - destruct (r !! c) as [v|] eqn:Hv.
    + by rewrite (map_lookup_filter_Some_2 _ r c v).
    + rewrite (proj2 (map_lookup_filter_None _ r c)); [done|]. by left.
  - rewrite (proj2 (map_lookup_filter_None _ r c)); [done|].
    right. intros v _. done.
Qed.

Lemma getitem_list_Ok df cols out :
  getitem_list df cols = Ok out ↔
  cols ⊆ columns df ∧
  out = {| columns := cols;
           rows := (λ ir, (ir.1, filter (λ kv, kv.1 ∈ cols) ir.2)) <$> rows df |}.
Proof.
  unfold getitem_list.
  destruct (filter (λ c, c ∉ columns df) cols) as [|c missing] eqn:Hmiss.
  - assert (cols ⊆ columns df) as Hsub.
    { intros c Hc. destruct (decide (c ∈ columns df)) as [|Hn]; [done|].
      assert (c ∈ filter (λ c, c ∉ columns df) cols) as Hin
        by by apply list_elem_of_filter.
      rewrite Hmiss in Hin. by apply elem_of_nil in Hin. }
    split; [by intros [= <-]|by intros [_ ->]].
  - assert (c ∈ filter (λ c, c ∉ columns df) cols) as Hin
      by (rewrite Hmiss; apply list_elem_of_here).
    apply list_elem_of_filter in Hin as [Hn Hc].
    split; [done|]. intros [Hsub _]. destruct (Hn (Hsub _ Hc)).
Qed.

Lemma getitem_list_Raise df cols e :
  getitem_list df cols = Raise e ↔
  ¬ cols ⊆ columns df ∧ e = KeyError (filter (λ c, c ∉ columns df) cols).
Proof.
  destruct (getitem_list df cols) as [out| |] eqn:Hres.
  - apply getitem_list_Ok in Hres as [Hsub _]. split; [done|]. by intros [? _].
  - unfold getitem_list in Hres.
    destruct (filter (λ c, c ∉ columns df) cols) as [|c missing] eqn:Hmiss;
      [done|]. injection Hres as <-.
    assert (c ∈ filter (λ c, c ∉ columns df) cols) as Hin
      by (rewrite Hmiss; apply list_elem_of_here).
    apply list_elem_of_filter in Hin as [Hn Hc].
    split.
    + intros [= <-]. split; [|done]. intros Hsub. by apply Hn, Hsub.
    + by intros [_ ->].
  - unfold getitem_list in Hres. by destruct (filter _ cols).
Qed.

Lemma features_code : "primaryaccidentcausecode" ∈ features_to_analyze.
Proof. unfold features_to_analyze. set_solver. Qed.

Lemma features_date : "date" ∈ features_to_analyze.
Proof. unfold features_to_analyze. set_solver. Qed.

(** Cell 4 as a whole. *)
Lemma cell4_Ok table df out :
  cell4 table df = Ok out ↔
  features_to_analyze ⊆ columns df ∧
  out = {| columns := features_to_analyze;
           rows := project_row features_to_analyze
                     <$> filter (λ ir, not_excluded (codes_list table) ir = true)
                           (rows df) |}.
Proof.
  unfold cell4, mbind, res_bind.
  destruct (exclusion (codes_list table) df) as [kept| |] eqn:Hex.
  - apply exclusion_Ok in Hex as [Hcode ->].
    rewrite getitem_list_Ok. done.
  - apply exclusion_Raise in Hex as [Hn _]. split; [done|].
    intros [Hsub _]. destruct (Hn (Hsub _ features_code)).
  - unfold exclusion, mbind, res_bind in Hex.
    destruct (getitem df _) eqn:Hg; try done.
    unfold getitem in Hg. by case_decide.
Qed.

Lemma cell4_cases table df :
  (∃ out, cell4 table df = Ok out) ∨
  (∃ c missing, cell4 table df = Raise (KeyError (c :: missing)) ∧
                c ∈ features_to_analyze ∧ c ∉ columns df).
Proof.
  unfold cell4, mbind, res_bind.
  destruct (exclusion (codes_list table) df) as [kept|e|] eqn:Hex.
  - apply exclusion_Ok in Hex as [_ ->]. unfold getitem_list. simpl.
    destruct (filter _ features_to_analyze) as [|c missing] eqn:Hmiss.
    + left. eauto.
    + right. exists c, missing. split; [done|].
      assert (c ∈ filter (λ c, c ∉ columns df) features_to_analyze) as Hin
        by (rewrite Hmiss; apply list_elem_of_here).
      apply list_elem_of_filter in Hin as [? ?]. done.
  - apply exclusion_Raise in Hex as [Hn ->]. right.
    exists "primaryaccidentcausecode"%string, []. split; [done|].
    split; [apply features_code|done].
  - unfold exclusion, mbind, res_bind in Hex.
    destruct (getitem df _) eqn:Hg; try done.
    unfold getitem in Hg. by case_decide.
Qed.

Lemma cell4_Raise table df :
  (∃ missing, cell4 table df = Raise (KeyError missing)) ↔
  ∃ c, c ∈ features_to_analyze ∧ c ∉ columns df.
Proof.
  split.
  - intros [missing Hres].
    destruct (cell4_cases table df) as [[out HOk]|(c & m & _ & Hc & Hn)];
      [congruence|eauto].
  - intros (c & Hc & Hn).
    destruct (cell4_cases table df) as [[out HOk]|(c' & m & HR & _)]; [|eauto].
    apply cell4_Ok in HOk as [Hsub _]. destruct (Hn (Hsub _ Hc)).
Qed.

Lemma recency_filter_Ok today df out :
  recency_filter today df = Ok out ↔
  "date" ∈ columns df ∧
  out = {| columns := columns df;
           rows := filter (λ ir, recent today ir = true) (rows df) |}.
Proof.
  unfold recency_filter, mbind, res_bind, mret, res_ret.
  destruct (getitem df "date") as [col| |] eqn:Hcol.
  - apply getitem_Ok in Hcol as [Hin ->].
    pose proof (boolean_index_rows df (ge_datetime (ten_years_ago today))
                  "date") as Hrows.
    split.
    + intros [= <-]. split; [done|].
      unfold recent. rewrite <- Hrows. by destruct df.
    + intros [_ ->]. f_equal. unfold recent. rewrite <- Hrows. by destruct df.
  - apply getitem_Raise in Hcol as [Hnin _]. split; [done|]. by intros [? _].
  - unfold getitem in Hcol. by case_decide.
Qed.

(** What a successful run of cell 5 did. *)
Lemma cell5_Ok df env w out w' :
  cell5 df env w = (Ok out, w') →
  ∃ parsed,
    "date" ∈ columns df ∧
    parse_dates env ((λ ir, cell ir.2 "date") <$> rows df) = Some parsed ∧
    length parsed = length (rows df) ∧
    columns out = columns df ∧
    rows out = filter (λ ir, recent (clock env (clock_reads w)) ir = true)
                 (zip_with set_date (rows df) parsed) ∧
    http_log w' = http_log w ∧
    clock_reads w' = S (clock_reads w) ∧
    (∃ msg, stdout w' = stdout w ++ [msg]) ∧
    files w' = files w.
Proof.
  unfold cell5, mbind, M_bind, ask, lift_res.
  destruct (getitem df "date") as [col| |] eqn:Hcol; [|done..].
  apply getitem_Ok in Hcol as [Hdate ->].
  unfold to_datetime.
  destruct (parse_dates env _) as [parsed|] eqn:Hparse; [|done].
  unfold setitem. rewrite length_fmap.
  case_decide as Hlen; [|done].
  rewrite decide_True by done.
  unfold datetime_today. cbn [clock_reads].
  destruct (recency_filter _ _) as [kept| |] eqn:Hrec; [|done..].
  apply recency_filter_Ok in Hrec as [_ ->]. cbn [rows columns].
  destruct (getitem _ "date") as [col| |]; [|done..].
  unfold print, mret, M_ret. cbn.
  intros [= <- <-]. exists parsed. cbn.
  rewrite zip_with_fmap_r.
  repeat split; try done. eauto.
Qed.

Lemma cell_set_date ir t : cell (set_date ir t).2 "date" = timestamp_cell t.
Proof. unfold cell, set_date; simpl. by rewrite lookup_insert_eq. Qed.

Lemma cell_set_date_ne ir t c :
  c ≠ "date"%string → cell (set_date ir t).2 c = cell ir.2 c.
Proof. intros Hc. unfold cell, set_date; simpl. by rewrite lookup_insert_ne. Qed.

Lemma recent_set_date today ir t :
  recent today (set_date ir t) = true ↔
  ∃ z, t = Some z ∧ (ten_years_ago today ≤ z)%Z.
Proof.
  unfold recent. rewrite cell_set_date.
  destruct t as [z|]; simpl.
  - rewrite bool_decide_eq_true. split; [eauto|]. by intros (? & [= <-] & ?).
  - split; [done|]. by intros (? & ? & _).
Qed.

Lemma elem_of_cell5_rows today (l : list (nat * record)) parsed ir t :
  set_date ir t ∈ filter (λ x, recent today x = true) (zip_with set_date l parsed)
  ↔ recent today (set_date ir t) = true ∧ set_date ir t ∈ zip_with set_date l parsed.
Proof. by rewrite list_elem_of_filter. Qed.

Lemma set_date_in (l : list (nat * record)) parsed k ir t :
  l !! k = Some ir → parsed !! k = Some t →
  set_date ir t ∈ zip_with set_date l parsed.
Proof. intros. apply elem_of_lookup_zip_with. by exists k, ir, t. Qed.

(** ** C1: the boundary of the ten-year window *)

(** C1, amended. Let D be the reading of [datetime.today()] in a run of
    cell 5, an instant with its time of day.  A row whose date parses to
    exactly the instant D - 3650 days is kept by the recency filter (the
    bound is inclusive on instants), and a row whose date parses to
    D - 3651 days is not in the result.  For a row dated by calendar day,
    that is stamped at midnight n days before the day of the run, and a run
    at [tod] past midnight with [0 < tod] and at most a day, the row is kept
    exactly when n is at most 3649: the row dated 3650 days before the date
    of the run is dropped. *)
Theorem recency_boundary df env w out w' :
  cell5 df env w = (Ok out, w') →
  ∃ parsed,
    parse_dates env ((λ ir, cell ir.2 "date") <$> rows df) = Some parsed ∧
    ∀ k ir t,
      rows df !! k = Some ir → parsed !! k = Some (Some t) →
      (t = (clock env (clock_reads w) - timedelta 3650)%Z →
         set_date ir (Some t) ∈ rows out) ∧
      (t = (clock env (clock_reads w) - timedelta 3651)%Z →
         set_date ir (Some t) ∉ rows out) ∧
      (∀ midnight tod n,
         clock env (clock_reads w) = (midnight + tod)%Z →
         (0 < tod ≤ day)%Z →
         t = (midnight - n * day)%Z →
         (set_date ir (Some t) ∈ rows out ↔ (n ≤ 3649)%Z)).
Proof.
  intros Hrun.
  apply cell5_Ok in Hrun
    as (parsed & _ & Hparse & _ & _ & Hrows & _).
  exists parsed. split; [done|].
  intros k ir t Hir Ht. rewrite Hrows.
  pose proof (set_date_in _ _ k _ _ Hir Ht) as Hin.
  split; [|split].
  - intros ->. rewrite elem_of_cell5_rows, recent_set_date. split; [|done].
    eexists. split; [done|]. unfold ten_years_ago, timedelta. lia.
  - intros ->. rewrite elem_of_cell5_rows, recent_set_date.
    intros [(z & [= <-] & Hz) _].
    unfold ten_years_ago, timedelta, day in Hz. lia.
  - intros midnight tod n Hclock Htod ->.
    rewrite elem_of_cell5_rows, recent_set_date, Hclock.
    unfold ten_years_ago, timedelta, day in *. split.
    + intros [(z & [= <-] & Hz) _]. lia.
    + intros Hn. split; [|done]. eexists. split; [done|]. lia.
Qed.

(** The window is measured from the instant of the run, time of day
    included: when the clock reads [tod] past midnight, [0 < tod], a row
    stamped at midnight of the day 3650 days before today is older than the
    cutoff. *)
Lemma recency_midnight_row_dropped midnight tod ir :
  (0 < tod)%Z →
  cell ir.2 "date" = VTimestamp (midnight - timedelta 3650) →
  recent (midnight + tod) ir = false.
Proof.
  intros Htod Hdate. unfold recent. rewrite Hdate. simpl.
  apply bool_decide_eq_false. unfold ten_years_ago, timedelta. lia.
Qed.

(** ** C6: one cutoff per run *)

(** C6. A run of cell 5 reads the clock exactly once, and there is a single
    cutoff instant c, that reading minus 3650 days, such that every row is
    kept by the recency filter if and only if its parsed date is a
    timestamp at or after c. *)
Theorem single_cutoff df env w out w' :
  cell5 df env w = (Ok out, w') →
  clock_reads w' = S (clock_reads w) ∧
  ∃ c parsed,
    c = ten_years_ago (clock env (clock_reads w)) ∧
    parse_dates env ((λ ir, cell ir.2 "date") <$> rows df) = Some parsed ∧
    ∀ k ir t,
      rows df !! k = Some ir → parsed !! k = Some t →
      (set_date ir t ∈ rows out ↔ ∃ z, t = Some z ∧ (c ≤ z)%Z).
Proof.
  intros Hrun.
  apply cell5_Ok in Hrun
    as (parsed & _ & Hparse & _ & _ & Hrows & _ & Hreads & _).
  split; [done|].
  exists (ten_years_ago (clock env (clock_reads w))), parsed.
  split; [done|]. split; [done|].
  intros k ir t Hir Ht. rewrite Hrows, elem_of_cell5_rows, recent_set_date.
  split; [by intros [? _]|]. intros Hz. split; [done|].
  by apply (set_date_in _ _ k).
Qed.

(** ** The row filter as a whole *)

Lemma elem_of_codes_list (table : gmap string string) s :
  s ∈ codes_list table ↔ is_Some (table !! s).
Proof.
  unfold codes_list. rewrite list_elem_of_fmap. split.
  - intros ([s' l] & -> & Hin). apply elem_of_map_to_list in Hin. by exists l.
  - intros [l Hl]. exists (s, l). split; [done|]. by apply elem_of_map_to_list.
Qed.

Lemma not_excluded_true codes ir :
  not_excluded codes ir = true ↔
  ∀ s, cell ir.2 "primaryaccidentcausecode" = VStr s → s ∉ codes.
Proof.
  unfold not_excluded, isin. rewrite negb_true_iff.
  destruct (cell ir.2 "primaryaccidentcausecode") as [|s'|n|t].
  - split; [by intros _ s|done].
  - rewrite bool_decide_eq_false. split.
    + by intros Hn s [= <-].
    + intros H. by apply H.
  - split; [by intros _ s|done].
  - split; [by intros _ s|done].
Qed.

Lemma cell_project_row cols ir c :
  c ∈ cols → cell (project_row cols ir).2 c = cell ir.2 c.
Proof. intros Hc. unfold project_row; simpl. by rewrite cell_restrict, decide_True. Qed.

Lemma row_filter_Ok table df env w out w' :
  row_filter table df env w = (Ok out, w') →
  features_to_analyze ⊆ columns df ∧
  columns out = features_to_analyze ∧
  ∃ parsed,
    length parsed =
      length (filter (λ ir, not_excluded (codes_list table) ir = true) (rows df)) ∧
    rows out =
      filter (λ ir, recent (clock env (clock_reads w)) ir = true)
        (zip_with set_date
           (project_row features_to_analyze
              <$> filter (λ ir, not_excluded (codes_list table) ir = true)
                    (rows df))
           parsed) ∧
    files w' = files w.
Proof.
  unfold row_filter, mbind, M_bind, lift_res.
  destruct (cell4 table df) as [mid| |] eqn:Hmid; [|done..].
  apply cell4_Ok in Hmid as [Hsub ->]. intros Hrun.
  apply cell5_Ok in Hrun
    as (parsed & _ & _ & Hlen & Hcols & Hrows & _ & _ & _ & Hfiles).
  cbn [rows columns] in *. rewrite length_fmap in Hlen.
  split; [done|]. split; [done|]. exists parsed. done.
Qed.

(** Every row of the result is a fetched row that passed the exclusion
    test, cut to the projected columns and with its date converted. *)
Lemma row_filter_row_origin table df env w out w' ir' :
  row_filter table df env w = (Ok out, w') →
  ir' ∈ rows out →
  ∃ ir t, ir ∈ rows df ∧
          not_excluded (codes_list table) ir = true ∧
          ir' = set_date (project_row features_to_analyze ir) t.
Proof.
  intros Hrun Hin.
  apply row_filter_Ok in Hrun as (_ & _ & parsed & _ & Hrows & _).
  rewrite Hrows in Hin. apply list_elem_of_filter in Hin as [_ Hin].
  apply elem_of_lookup_zip_with in Hin as (k & x & t & -> & Hx & _).
  apply list_elem_of_lookup_2, list_elem_of_fmap in Hx as (ir & -> & Hir).
  apply list_elem_of_filter in Hir as [Hne Hir]. by exists ir, t.
Qed.

(** ** C5: excluded codes do not reach the output *)

(** C5. Whatever the input frame and the cause-code table, no row that the
    exclusion step lets through, and no row of the output of the whole row
    filter, carries a cause code that is a key of the table.  The table is
    consulted for its keys only: two tables with the same keys give the same
    result. *)
Theorem excluded_codes_absent (table : gmap string string) df :
  (∀ out ir s,
     exclusion (codes_list table) df = Ok out →
     ir ∈ rows out →
     cell ir.2 "primaryaccidentcausecode" = VStr s → table !! s = None) ∧
  (∀ env w out w' ir s,
     row_filter table df env w = (Ok out, w') →
     ir ∈ rows out →
     cell ir.2 "primaryaccidentcausecode" = VStr s → table !! s = None) ∧
  (∀ table' : gmap string string,
     dom table' = dom table →
     exclusion (codes_list table') df = exclusion (codes_list table) df ∧
     row_filter table' df = row_filter table df).
Proof.
  split; [|split].
  - intros out ir s Hex Hin Hcode.
    apply exclusion_Ok in Hex as [_ ->]. cbn [rows] in Hin.
    apply list_elem_of_filter in Hin as [Hne _].
    rewrite not_excluded_true in Hne. specialize (Hne s Hcode).
    rewrite elem_of_codes_list in Hne. by apply eq_None_not_Some.
  - intros env w out w' ir' s Hrun Hin Hcode.
    destruct (row_filter_row_origin _ _ _ _ _ _ _ Hrun Hin)
      as (ir & t & _ & Hne & ->).
    rewrite cell_set_date_ne in Hcode by done.
    rewrite cell_project_row in Hcode by apply features_code.
    rewrite not_excluded_true in Hne. specialize (Hne s Hcode).
    rewrite elem_of_codes_list in Hne. by apply eq_None_not_Some.
  - intros table' Hdom.
    assert (∀ ir, not_excluded (codes_list table') ir
                  = not_excluded (codes_list table) ir) as Hsame.
    { intros ir. unfold not_excluded, isin.
      destruct (cell ir.2 _) as [|s|n|t]; try done.
      f_equal. apply bool_decide_ext.
      by rewrite !elem_of_codes_list, <- !elem_of_dom, Hdom. }
    assert (exclusion (codes_list table') df = exclusion (codes_list table) df)
      as Hex.
    { unfold exclusion, mbind, res_bind.
      destruct (getitem df _) as [col| |] eqn:Hcol; try done.
      apply getitem_Ok in Hcol as [_ ->].
      do 2 f_equal. rewrite <- !list_fmap_compose.
      apply list_fmap_ext. intros ? ir _. apply (Hsame ir). }
    split; [done|]. unfold row_filter, cell4. by rewrite Hex.
Qed.

(** ** C9: rows without a cause code *)

(** C9, amended. A fetched record whose cause code is null or absent is kept
    by the exclusion step, whatever the code list, as soon as the frame has
    the column at all, that is, as soon as some fetched record carries the
    key (a record holding an explicit null is itself such a record).  When
    no fetched record carries the key, the step raises [KeyError] and keeps
    nothing. *)
Theorem null_code_retained codes all_data i (r : record) :
  all_data !! i = Some r →
  cell r "primaryaccidentcausecode" = VNull →
  ((∃ r' : record,
      r' ∈ all_data ∧ is_Some (r' !! "primaryaccidentcausecode")) →
   ∃ out, exclusion codes (DataFrame_of all_data) = Ok out ∧
          (i, r) ∈ rows out) ∧
  (is_Some (r !! "primaryaccidentcausecode") →
   ∃ out, exclusion codes (DataFrame_of all_data) = Ok out ∧
          (i, r) ∈ rows out) ∧
  ((∀ r' : record,
      r' ∈ all_data → r' !! "primaryaccidentcausecode" = None) →
   exclusion codes (DataFrame_of all_data) =
     Raise (KeyError ["primaryaccidentcausecode"%string])).
Proof.
  intros Hi Hnull.
  assert ((∃ r' : record,
             r' ∈ all_data ∧ is_Some (r' !! "primaryaccidentcausecode")) →
          ∃ out, exclusion codes (DataFrame_of all_data) = Ok out ∧
                 (i, r) ∈ rows out) as Hkept.
  { intros Hcol. apply DataFrame_of_columns in Hcol.
    eexists. split; [by apply exclusion_Ok|]. cbn [rows].
    apply list_elem_of_filter. split.
    - unfold not_excluded. cbn [snd]. by rewrite Hnull.
    - by apply DataFrame_of_rows. }
  split; [done|]. split.
  - intros Hsome. apply Hkept. exists r. split; [|done].
    by apply list_elem_of_lookup_2 in Hi.
  - intros Hnone. apply exclusion_Raise. split; [|done].
    rewrite DataFrame_of_columns. intros (r' & Hr' & Hsome).
    rewrite (Hnone r' Hr') in Hsome. by destruct Hsome.
Qed.

(** ** C7: columns missing from a record *)

(** C7, amended. After the exclusion step, the projection raises [KeyError]
    exactly when some configured column is carried by no fetched record at
    all.  Otherwise it succeeds and keeps every surviving row: a record that
    lacks a column which some other fetched record carries stays in the
    frame, with null in that column. *)
Theorem projection_key_error codes all_data kept :
  exclusion codes (DataFrame_of all_data) = Ok kept →
  ((∃ missing,
      getitem_list kept features_to_analyze = Raise (KeyError missing)) ↔
   (∃ c, c ∈ features_to_analyze ∧
         ∀ r : record, r ∈ all_data → r !! c = None)) ∧
  (∀ out i (r : record),
     getitem_list kept features_to_analyze = Ok out →
     (i, r) ∈ rows kept →
     ∃ r' : record,
       (i, r') ∈ rows out ∧
       ∀ c, c ∈ features_to_analyze → cell r' c = default VNull (r !! c)).
Proof.
  intros Hex. apply exclusion_Ok in Hex as [_ ->].
  assert (∀ c, c ∉ columns (DataFrame_of all_data) ↔
               ∀ r : record, r ∈ all_data → r !! c = None) as Hcol.
  { intros c. rewrite DataFrame_of_columns. split.
    - intros Hn r Hr. apply eq_None_not_Some. intros Hs. apply Hn. eauto.
    - intros Hnone (r & Hr & Hs). rewrite (Hnone r Hr) in Hs. by destruct Hs. }
  split; [split|].
  - intros [missing Hres]. apply getitem_list_Raise in Hres as [Hn _].
    cbn [columns] in Hn.
    destruct (filter (λ c, c ∉ columns (DataFrame_of all_data))
                features_to_analyze) as [|c m] eqn:Hmiss.
    + exfalso. apply Hn. intros c Hc.
      destruct (decide (c ∈ columns (DataFrame_of all_data))) as [|Hc']; [done|].
      assert (c ∈ filter (λ c, c ∉ columns (DataFrame_of all_data))
                features_to_analyze) as Hin by by apply list_elem_of_filter.
      rewrite Hmiss in Hin. by apply elem_of_nil in Hin.
    + assert (c ∈ filter (λ c, c ∉ columns (DataFrame_of all_data))
                features_to_analyze) as Hin
        by (rewrite Hmiss; apply list_elem_of_here).
      apply list_elem_of_filter in Hin as [Hc' Hc].
      exists c. split; [done|]. by apply Hcol.
  - intros (c & Hc & Hnone). eexists. apply getitem_list_Raise.
    split; [|done]. cbn [columns]. intros Hsub.
    apply (proj2 (Hcol c)); [done|]. by apply Hsub.
  - intros out i r HOk Hin. apply getitem_list_Ok in HOk as [_ ->].
    exists (filter (λ kv, kv.1 ∈ features_to_analyze) r). split.
    + cbn [rows]. apply list_elem_of_fmap. by exists (i, r).
    + intros c Hc. by rewrite cell_restrict, decide_True.
Qed.

(** ** C10: the row filter keeps the order of the rows *)

Lemma index_set_date (l : list (nat * record)) parsed :
  length parsed = length l → (zip_with set_date l parsed).*1 = l.*1.
Proof.
  revert parsed. induction l as [|ir l IH]; intros [|t parsed] Hlen;
    try done. cbn [zip_with fmap list_fmap]. f_equal. apply IH.
  simpl in Hlen. lia.
Qed.

Lemma index_project_row cols (l : list (nat * record)) :
  (project_row cols <$> l).*1 = l.*1.
Proof. rewrite <- list_fmap_compose. by apply list_fmap_ext. Qed.

(** On any frame the index labels of the result are a sublist of the index
    labels of the input. *)
Lemma row_filter_index_sublist table df env w out w' :
  row_filter table df env w = (Ok out, w') →
  (rows out).*1 `sublist_of` (rows df).*1.
Proof.
  intros Hrun.
  apply row_filter_Ok in Hrun as (_ & _ & parsed & Hlen & Hrows & _).
  rewrite Hrows. etrans; [apply fmap_sublist, sublist_filter|].
  rewrite index_set_date by by rewrite length_fmap.
  rewrite index_project_row. apply fmap_sublist, sublist_filter.
Qed.

(** C10. The index labels of the filtered frame are a sublist of the
    positions 0, 1, ..., n-1 of the fetched records, so the rows come in
    their original order, none twice; and the row labelled i is the fetched
    record at position i: on every projected column other than the
    converted [date] it holds the string the record holds there, and null
    where the record holds null or nothing. *)
Theorem row_filter_order_preserving table all_data env w out w' :
  row_filter table (DataFrame_of all_data) env w = (Ok out, w') →
  (rows out).*1 `sublist_of` seq 0 (length all_data) ∧
  ∀ i (r' : record),
    (i, r') ∈ rows out →
    ∃ r : record,
      all_data !! i = Some r ∧
      ∀ c, c ∈ features_to_analyze → c ≠ "date"%string →
           (∀ s, cell r c = VStr s → cell r' c = VStr s) ∧
           (cell r c = VNull → cell r' c = VNull).
Proof.
  intros Hrun. split.
  - rewrite <- DataFrame_of_index. by eapply row_filter_index_sublist.
  - intros i r' Hin.
    destruct (row_filter_row_origin _ _ _ _ _ _ _ Hrun Hin)
      as ([j r] & t & Hr & _ & Heq).
    unfold set_date, project_row in Heq. cbn [fst snd] in Heq.
    injection Heq as -> ->. exists r. split; [by apply DataFrame_of_rows|].
    intros c Hc Hdate.
    assert (cell (<["date"%string := timestamp_cell t]>
                    (filter (λ kv, kv.1 ∈ features_to_analyze) r)) c
            = cell r c) as ->.
    { unfold cell. rewrite lookup_insert_ne by done.
      fold (cell (filter (λ kv, kv.1 ∈ features_to_analyze) r) c).
      fold (cell r c). by rewrite cell_restrict, decide_True. }
    done.
Qed.

(** ** C8: the exported file *)

Lemma features_length : length features_to_analyze = 21.
Proof. reflexivity. Qed.

(** C8. For every filtered dataset, cell 6 succeeds and leaves at the fixed
    path a file whose header row is the list of the 21 projected columns in
    their fixed order, followed by one row per record of the dataset, each
    of 21 fields: there is no index column in the header or in the rows. *)
Theorem export_header_rows table df env w out w1 :
  row_filter table df env w = (Ok out, w1) →
  ∃ body,
    cell6 out env w1 =
      (Ok tt,
       {| http_log := http_log w1;
          clock_reads := clock_reads w1;
          stdout := stdout w1;
          files := <[csv_path := features_to_analyze :: body]> (files w1) |}) ∧
    length features_to_analyze = 21 ∧
    length body = length (rows out) ∧
    Forall (λ line, length line = 21) body.
Proof.
  intros Hrun. apply row_filter_Ok in Hrun as (_ & Hcols & _).
  exists ((λ ir : nat * record,
             (λ c, format_value env (cell ir.2 c)) <$> features_to_analyze)
            <$> rows out).
  split; [|split; [|split]].
  - unfold cell6, mbind, M_bind, ask, write_file, to_csv.
    by rewrite Hcols.
  - done.
  - by rewrite length_fmap.
  - apply Forall_fmap, Forall_forall. intros ir _.
    unfold compose. by rewrite length_fmap.
Qed.

(** The whole notebook: a run that succeeds leaves that file behind. *)
Lemma notebook_exports fuel table env w out w' :
  notebook fuel table env w = (Ok out, w') →
  ∃ body,
    files w' !! csv_path = Some (features_to_analyze :: body) ∧
    length body = length (rows out).
Proof.
  unfold notebook, mbind at 1, M_bind at 1.
  destruct (fetch_all fuel env w) as [[all_data| |] w0]; [|done..].
  unfold mbind at 1, M_bind at 1.
  destruct (row_filter _ _ env w0) as [[out'| |] w1] eqn:Hfilter; [|done..].
  destruct (export_header_rows _ _ _ _ _ _ Hfilter)
    as (body & Hexport & _ & Hlen & _).
  unfold mbind, M_bind. rewrite Hexport. unfold mret, M_ret.
  intros [= <- <-]. exists body. split; [|done].
  cbn [files]. apply lookup_insert_eq.
Qed.

(** ** The statements at work on the sample run *)

Lemma recency_boundary_witness :
  (set_date sample_boundary_row (Some (sample_today - timedelta 3650)%Z)
     ∈ rows (frame_of sample_converted.1)) ∧
  (set_date sample_old_row (Some (sample_today - timedelta 3651)%Z)
     ∉ rows (frame_of sample_converted.1)) ∧
  (set_date (1, {[ "date"%string := VStr "2014-12-14T00:00:00.000" ]})
     (Some (20067 * day - 3649 * day)%Z)
     ∈ rows (frame_of sample_day_converted.1)) ∧
  (set_date (0, {[ "date"%string := VStr "2014-12-13T00:00:00.000" ]})
     (Some (20067 * day - 3650 * day)%Z)
     ∉ rows (frame_of sample_day_converted.1)).
Proof.
  destruct (recency_boundary sample_projected sample_env sample_world
              (frame_of sample_converted.1) sample_converted.2)
    as (parsed & Hparse & Hrows).
  { reflexivity. }
  vm_compute in Hparse. injection Hparse as <-.
  destruct (recency_boundary sample_day_frame sample_day_env sample_world
              (frame_of sample_day_converted.1) sample_day_converted.2)
    as (parsed & Hparse & Hdays).
  { reflexivity. }
  vm_compute in Hparse. injection Hparse as <-.
  split; [|split; [|split]].
  - apply (Hrows 0 sample_boundary_row); reflexivity.
  - apply (Hrows 1 sample_old_row); reflexivity.
  - apply (proj2 (proj2 (Hdays 1
             (1, {[ "date"%string := VStr "2014-12-14T00:00:00.000" ]})
             (20067 * day - 3649 * day)%Z eq_refl eq_refl))
             (20067 * day)%Z 43200000000%Z 3649%Z).
    + reflexivity.
    + unfold day. lia.
    + reflexivity.
    + lia.
  - intros Hin.
    apply (proj2 (proj2 (Hdays 0
             (0, {[ "date"%string := VStr "2014-12-13T00:00:00.000" ]})
             (20067 * day - 3650 * day)%Z eq_refl eq_refl))
             (20067 * day)%Z 43200000000%Z 3650%Z) in Hin.
    + lia.
    + reflexivity.
    + unfold day. lia.
    + reflexivity.
Defined.

Lemma single_cutoff_witness :
  clock_reads sample_converted.2 = 1 ∧
  (set_date sample_boundary_row (Some (sample_today - timedelta 3650)%Z)
     ∈ rows (frame_of sample_converted.1) ↔
   ∃ z, Some (sample_today - timedelta 3650)%Z = Some z ∧
        (ten_years_ago sample_today ≤ z)%Z).
Proof.
  destruct (single_cutoff sample_projected sample_env sample_world
              (frame_of sample_converted.1) sample_converted.2)
    as (Hreads & c & parsed & -> & Hparse & Hrows).
  { reflexivity. }
  split; [exact Hreads|].
  vm_compute in Hparse. injection Hparse as <-.
  apply (Hrows 0 sample_boundary_row); reflexivity.
Defined.

Lemma fetch_mock_call_count_witness :
  ∃ calls,
    fetch_loop 5 3 0 [] sample_env sample_world =
      (Ok sample_all_data, add_calls sample_world calls) ∧
    length calls = ceil_div 4 3 + 1.
Proof.
  destruct (fetch_mock_call_count sample_all_data 3 sample_env 5 sample_world)
    as [(calls & Hrun & Hlen & _) _].
  - lia.
  - reflexivity.
  - vm_compute. lia.
  - exists calls. split; [exact Hrun|exact Hlen].
Defined.

Lemma pagination_lossless_witness :
  ∃ calls,
    fetch_loop 5 3 0 [] sample_env sample_world =
      (Ok (single_fetch (mock_source sample_all_data) 4),
       add_calls sample_world calls) ∧
    concat (json <$> calls.*2) = sample_all_data.
Proof.
  destruct (pagination_lossless sample_all_data 3 sample_env 5 sample_world)
    as (calls & Hrun & _ & Hpages & Hone).
  - lia.
  - reflexivity.
  - vm_compute. lia.
  - exists calls. split; [exact Hrun|].
    exact (eq_trans Hpages Hone).
Defined.

Lemma fetch_aborts_at_first_failure_witness :
  fetch_loop 5 1 0 [] sample_failing_env sample_world =
    (Ok (concat ((λ k, json (call sample_failing_env sample_world 1 k).2)
                   <$> seq 1 2)),
     add_stdout
       (add_calls sample_world (call sample_failing_env sample_world 1 <$> seq 1 3))
       [FetchFailed 503]).
Proof.
  apply (fetch_aborts_at_first_failure sample_failing_env sample_world 1 3 5).
  - lia.
  - lia.
  - intros k Hk. assert (k = 1 ∨ k = 2) as [-> | ->] by lia;
      (split; [reflexivity|discriminate]).
  - vm_compute. discriminate.
Defined.

Lemma excluded_codes_absent_witness :
  set_date sample_boundary_row (Some (sample_today - timedelta 3650)%Z)
    ∈ rows (frame_of sample_filtered.1) ∧
  sample_table !! "H302"%string = None.
Proof.
  assert (set_date sample_boundary_row (Some (sample_today - timedelta 3650)%Z)
            ∈ rows (frame_of sample_filtered.1)) as Hin.
  { apply (list_elem_of_lookup_2 _ 0). reflexivity. }
  split; [exact Hin|].
  apply (proj1 (proj2 (excluded_codes_absent sample_table sample_frame))
           sample_env sample_world (frame_of sample_filtered.1)
           sample_filtered.2
           (set_date sample_boundary_row
              (Some (sample_today - timedelta 3650)%Z))
           "H302"%string).
  - reflexivity.
  - exact Hin.
  - reflexivity.
Defined.

Lemma projection_key_error_witness :
  ∃ r' : record,
    (3, r') ∈ rows sample_projected ∧
    ∀ c, c ∈ features_to_analyze →
         cell r' c = default VNull
                       (delete "latitude"%string
                          (sample_record "M101" "2024-08-31T00:00:00.000") !! c).
Proof.
  apply (proj2 (projection_key_error (codes_list sample_table) sample_all_data
                  sample_kept ltac:(reflexivity))
           sample_projected 3).
  - reflexivity.
  - apply (list_elem_of_lookup_2 _ 2). reflexivity.
Defined.

Lemma export_header_rows_witness :
  ∃ body,
    files (cell6 (frame_of sample_filtered.1) sample_env sample_filtered.2).2
      !! csv_path = Some (features_to_analyze :: body) ∧
    length body = 2.
Proof.
  destruct (export_header_rows sample_table sample_frame sample_env sample_world
              (frame_of sample_filtered.1) sample_filtered.2)
    as (body & Hexport & _ & Hlen & _).
  { reflexivity. }
  exists body. split.
  - rewrite Hexport. cbn [snd files]. apply lookup_insert_eq.
  - exact Hlen.
Defined.

Lemma null_code_retained_witness :
  ∃ out,
    exclusion ["T001"%string]
      (DataFrame_of [sample_record "H302" "2014-12-13T12:00:00.000";
                     codeless_record]) = Ok out ∧
    (1, codeless_record) ∈ rows out.
Proof.
  apply (proj1 (null_code_retained ["T001"%string]
                  [sample_record "H302" "2014-12-13T12:00:00.000";
                   codeless_record] 1 codeless_record
                  ltac:(reflexivity) ltac:(reflexivity))).
  exists (sample_record "H302" "2014-12-13T12:00:00.000"). split.
  - apply list_elem_of_here.
  - exists (VStr "H302"). reflexivity.
Defined.

Lemma row_filter_order_preserving_witness :
  (rows (frame_of sample_filtered.1)).*1 `sublist_of` seq 0 4.
Proof.
  apply (row_filter_order_preserving sample_table sample_all_data sample_env
           sample_world (frame_of sample_filtered.1) sample_filtered.2).
  reflexivity.
Defined.

(** ** Where the documented behaviour and the notebook part *)

(** C1, as stated, fails for records dated by calendar day.  On a run at
    noon of 2024-12-10, day 20067 of the epoch, the record dated 2014-12-13,
    exactly 3650 days before the date of the run, parses to midnight of that
    day and is dropped: only the record of 2014-12-14 is kept. *)
Lemma recency_calendar_day_counterexample :
  clock sample_day_env (clock_reads sample_world)
    = (20067 * day + 43200000000)%Z ∧
  parse_dates sample_day_env
    ((λ ir, cell ir.2 "date") <$> rows sample_day_frame)
    = Some [Some (20067 * day - 3650 * day)%Z;
            Some (20067 * day - 3649 * day)%Z] ∧
  ∃ out w',
    cell5 sample_day_frame sample_day_env sample_world = (Ok out, w') ∧
    (λ ir : nat * record, (ir.1, cell ir.2 "date")) <$> rows out
      = [(1, VTimestamp (20067 * day - 3649 * day))].
Proof.
  split; [reflexivity|]. split; [reflexivity|].
  exists (frame_of sample_day_converted.1), sample_day_converted.2.
  split; reflexivity.
Qed.

(** C7, as stated, fails on the sample run: the record at position 3 passes
    the exclusion step and has no [latitude], a configured column; the
    projection does not raise, and the record is in its result with a null
    latitude. *)
Lemma projection_null_fill_counterexample :
  exclusion (codes_list sample_table) (DataFrame_of sample_all_data)
    = Ok sample_kept ∧
  (λ ir : nat * record, (ir.1, ir.2 !! "latitude"%string)) <$> rows sample_kept
    = [(1, Some (VStr "latitude")); (2, Some (VStr "latitude")); (3, None)] ∧
  "latitude"%string ∈ features_to_analyze ∧
  getitem_list sample_kept features_to_analyze = Ok sample_projected ∧
  (λ ir : nat * record, (ir.1, cell ir.2 "latitude")) <$> rows sample_projected
    = [(1, VStr "latitude"); (2, VStr "latitude"); (3, VNull)].
Proof.
  split; [reflexivity|].
  split; [reflexivity|].
  split; [unfold features_to_analyze; set_solver|].
  split; reflexivity.
Qed.

(** C9, as stated, fails when no fetched record carries a cause code: the
    record has no code, yet the exclusion step raises and keeps nothing. *)
Lemma codeless_frame_counterexample :
  codeless_record !! "primaryaccidentcausecode"%string = None ∧
  exclusion ["T001"%string] (DataFrame_of [codeless_record]) =
    Raise (KeyError ["primaryaccidentcausecode"%string]) ∧
  ¬ ∃ out, exclusion ["T001"%string] (DataFrame_of [codeless_record]) = Ok out ∧
           (0, codeless_record) ∈ rows out.
Proof.
  assert (exclusion ["T001"%string] (DataFrame_of [codeless_record]) =
            Raise (KeyError ["primaryaccidentcausecode"%string])) as Hraise
    by (reflexivity).
  split; [reflexivity|]. split; [exact Hraise|].
  intros (out & HOk & _). rewrite Hraise in HOk. discriminate.
Qed.

(** * Further properties of the notebook *)

(** ** The fetch loop against any server *)

Lemma calls_seq env w P n :
  call env w P <$> seq 1 n =
  loop_call env (length (http_log w)) P 0 <$> seq 0 n.
Proof.
  rewrite <- (fmap_S_seq 0), <- list_fmap_compose.
  apply list_fmap_ext. intros ? j ?. unfold compose. apply call_S.
Qed.

Lemma pages_seq env w P n :
  (λ k, json (call env w P k).2) <$> seq 1 n =
  (λ j, json (loop_call env (length (http_log w)) P 0 j).2) <$> seq 0 n.
Proof.
  rewrite <- (fmap_S_seq 0), <- list_fmap_compose.
  apply list_fmap_ext. intros ? j ?. unfold compose. by rewrite call_S.
Qed.

(** Among the first [fuel] responses either all are successful and
    non-empty, or there is a first one that is not. *)
Lemma first_stopping_response env n0 P off fuel :
  (∀ j, j < fuel →
     status_code (loop_call env n0 P off j).2 = 200%Z ∧
     json (loop_call env n0 P off j).2 ≠ []) ∨
  (∃ n, n < fuel ∧
     (∀ j, j < n →
        status_code (loop_call env n0 P off j).2 = 200%Z ∧
        json (loop_call env n0 P off j).2 ≠ []) ∧
     (status_code (loop_call env n0 P off n).2 ≠ 200%Z ∨
      (status_code (loop_call env n0 P off n).2 = 200%Z ∧
       json (loop_call env n0 P off n).2 = []))).
Proof.
  induction fuel as [|fuel [Hall|(n & Hn & Hgood & Hstop)]].
  - left. intros j Hj. lia.
  - destruct (decide (status_code (loop_call env n0 P off fuel).2 = 200%Z))
      as [Hst|Hst].
    + destruct (json (loop_call env n0 P off fuel).2) as [|r page] eqn:Hpage.
      * right. exists fuel. split; [lia|]. split; [done|]. right. done.
      * left. intros j Hj. destruct (decide (j = fuel)) as [->|Hne].
        -- by rewrite Hpage.
        -- apply Hall. lia.
    + right. exists fuel. split; [lia|]. split; [done|]. by left.
  - right. exists n. split; [lia|]. done.
Qed.

Lemma fetch_loop_out_of_fuel env P fuel off acc w :
  (∀ j, j < fuel →
     status_code (loop_call env (length (http_log w)) P off j).2 = 200%Z ∧
     json (loop_call env (length (http_log w)) P off j).2 ≠ []) →
  fetch_loop fuel P off acc env w =
  (OutOfFuel,
   add_calls w (loop_call env (length (http_log w)) P off <$> seq 0 fuel)).
Proof.
  intros Hgood. replace fuel with (fuel + 0) at 1 by lia.
  by rewrite fetch_loop_good_prefix.
Qed.

(** Every run that returns has the same shape: some good pages, then one
    response that stops the loop. *)
Lemma fetch_loop_inv env fuel P off acc w d w' :
  fetch_loop fuel P off acc env w = (Ok d, w') →
  ∃ n, n < fuel ∧
    (∀ j, j < n →
       status_code (loop_call env (length (http_log w)) P off j).2 = 200%Z ∧
       json (loop_call env (length (http_log w)) P off j).2 ≠ []) ∧
    d = acc ++ concat ((λ j, json (loop_call env (length (http_log w)) P off j).2)
                         <$> seq 0 n) ∧
    ((status_code (loop_call env (length (http_log w)) P off n).2 = 200%Z ∧
      json (loop_call env (length (http_log w)) P off n).2 = [] ∧
      w' = add_calls w
             (loop_call env (length (http_log w)) P off <$> seq 0 (S n))) ∨
     (status_code (loop_call env (length (http_log w)) P off n).2 ≠ 200%Z ∧
      w' = add_stdout
             (add_calls w
                (loop_call env (length (http_log w)) P off <$> seq 0 (S n)))
             [FetchFailed
                (status_code
                   (loop_call env (length (http_log w)) P off n).2)])).
Proof.
  intros Hrun.
  destruct (first_stopping_response env (length (http_log w)) P off fuel)
    as [Hall|(n & Hn & Hgood & [Hbad|[Hst Hempty]])].
  - rewrite fetch_loop_out_of_fuel in Hrun by done. done.
  - rewrite (fetch_loop_fails_at env P n) in Hrun by done.
    injection Hrun as <- <-. exists n. split; [done|]. split; [done|].
    split; [done|]. by right.
  - rewrite (fetch_loop_ends_at env P n) in Hrun by done.
    injection Hrun as <- <-. exists n. split; [done|]. split; [done|].
    split; [done|]. by left.
Qed.

(** For any server, a run of the loop that returns made the calls 1..K for
    some K, at offsets 0, P, 2P, ...; calls 1..K-1 were successful with
    non-empty pages and the result is exactly those pages, in order; call K
    either brought an empty page, and nothing was printed, or failed, and
    its status was printed.  The clock and the files are not touched. *)
Theorem fetch_result_is_pages_received env w P fuel d w' :
  fetch_loop fuel P 0 [] env w = (Ok d, w') →
  ∃ K, 1 ≤ K ≤ fuel ∧
    http_log w' = http_log w ++ (call env w P <$> seq 1 K) ∧
    (call env w P <$> seq 1 K).*1 =
      (λ k, {| req_limit := P; req_offset := (k - 1) * P |}) <$> seq 1 K ∧
    (∀ k, 1 ≤ k < K →
       status_code (call env w P k).2 = 200%Z ∧ json (call env w P k).2 ≠ []) ∧
    d = concat ((λ k, json (call env w P k).2) <$> seq 1 (K - 1)) ∧
    ((status_code (call env w P K).2 = 200%Z ∧ json (call env w P K).2 = [] ∧
      stdout w' = stdout w) ∨
     (status_code (call env w P K).2 ≠ 200%Z ∧
      stdout w' = stdout w ++ [FetchFailed (status_code (call env w P K).2)])) ∧
    clock_reads w' = clock_reads w ∧ files w' = files w.
Proof.
  intros Hrun.
  apply fetch_loop_inv in Hrun as (n & Hn & Hgood & -> & Hlast).
  exists (S n). rewrite calls_seq, pages_seq, call_S.
  replace (S n - 1) with n by lia.
  split; [lia|].
  assert (http_log w' = http_log w ++
            (loop_call env (length (http_log w)) P 0 <$> seq 0 (S n)) ∧
          clock_reads w' = clock_reads w ∧ files w' = files w) as (Hlog & ? & ?).
  { by destruct Hlast as [(_ & _ & ->)|(_ & ->)]. }
  split; [done|]. split.
  { rewrite <- list_fmap_compose, <- (fmap_S_seq 0), <- list_fmap_compose.
    apply list_fmap_ext. intros ? j ?. unfold compose, loop_call, loop_request.
    simpl. by rewrite Nat.sub_0_r. }
  split.
  { intros k Hk. destruct k as [|k]; [lia|]. rewrite call_S.
    apply Hgood. lia. }
  split; [done|]. split; [|done].
  destruct Hlast as [(? & ? & ->)|(? & ->)]; [left|right]; done.
Qed.

(** For any server: when calls 1..K-1 are successful with non-empty pages
    and call K is successful with an empty page, the loop returns after
    exactly K calls with the pages of calls 1..K-1, and prints nothing. *)
Theorem fetch_completes_at_first_empty_page env w P K fuel :
  1 ≤ K → K ≤ fuel →
  (∀ k, 1 ≤ k < K →
     status_code (call env w P k).2 = 200%Z ∧ json (call env w P k).2 ≠ []) →
  status_code (call env w P K).2 = 200%Z →
  json (call env w P K).2 = [] →
  fetch_loop fuel P 0 [] env w =
    (Ok (concat ((λ k, json (call env w P k).2) <$> seq 1 (K - 1))),
     add_calls w (call env w P <$> seq 1 K)).
Proof.
  intros HK Hfuel Hgood Hst Hempty.
  destruct K as [|K]; [lia|]. rewrite call_S in Hst, Hempty.
  rewrite calls_seq, pages_seq. replace (S K - 1) with K by lia.
  rewrite (fetch_loop_ends_at env P K fuel 0 [] w); [done|lia| |done..].
  intros j Hj. rewrite <- call_S. apply Hgood. lia.
Qed.

(** The loop has no bound of its own on the number of calls: as long as
    every response is successful and non-empty it asks for the next page.
    Whatever number of iterations it is given, it has then issued that many
    calls and has not returned. *)
Theorem fetch_runs_while_pages_come env w P fuel :
  (∀ k, 1 ≤ k ≤ fuel →
     status_code (call env w P k).2 = 200%Z ∧ json (call env w P k).2 ≠ []) →
  fetch_loop fuel P 0 [] env w =
    (OutOfFuel, add_calls w (call env w P <$> seq 1 fuel)).
Proof.
  intros Hgood. rewrite calls_seq. apply fetch_loop_out_of_fuel.
  intros j Hj. rewrite <- call_S. apply Hgood. lia.
Qed.

(** ** Pages shorter than the limit *)

Lemma short_pages_length (data : list record) cap P n off :
  cap ≤ P →
  length (concat ((λ k, take cap (drop (off + k * P) data)) <$> seq 0 n))
  ≤ length data - off.
Proof.
  intros Hcap. revert off. induction n as [|n IH]; intros off.
  - simpl. lia.
  - rewrite fmap_seq_shift. cbn [concat]. rewrite length_app.
    rewrite (list_fmap_ext _ (λ k, take cap (drop (off + P + k * P) data))
               (seq 0 n)).
    + specialize (IH (off + P)).
      rewrite length_take, length_drop. lia.
    + intros ? k ?. unfold compose. do 2 f_equal. lia.
Qed.

(** The offset advances by [limit], not by the number of records received.
    Against a server that caps its pages below the limit, the loop still
    ends after ⌈N/P⌉ + 1 calls, but it only collects the first [cap] records
    of every window of P: as soon as the dataset has more than [cap]
    records, some are never fetched. *)
Theorem short_pages_lose_records data cap P env fuel w :
  1 ≤ cap → cap < P → server env = capped_source cap data →
  ceil_div (length data) P + 1 ≤ fuel →
  ∃ d,
    fetch_loop fuel P 0 [] env w =
      (Ok d, add_calls w (call env w P <$> seq 1 (ceil_div (length data) P + 1))) ∧
    d = concat ((λ k, take cap (drop (k * P) data))
                  <$> seq 0 (ceil_div (length data) P)) ∧
    (cap < length data → length d < length data).
Proof.
  intros Hcap HP Hsrv Hfuel.
  set (K := ceil_div (length data) P).
  assert (∀ j, (loop_call env (length (http_log w)) P 0 j).2 =
               {| status_code := 200;
                  json := take cap (drop (j * P) data) |}) as Hcall.
  { intros j. unfold loop_call, loop_response, loop_request. rewrite Hsrv.
    unfold capped_source. cbn [snd req_limit req_offset].
    by rewrite Nat.min_r by lia. }
  eexists. split; [|split; [reflexivity|]].
  - rewrite calls_seq. replace (K + 1) with (S K) by lia.
    rewrite (fetch_loop_ends_at env P K fuel 0 [] w).
    + rewrite app_nil_l. do 3 f_equal.
      apply list_fmap_ext. intros ? j ?. by rewrite Hcall.
    + lia.
    + intros j Hj. rewrite Hcall. split; [done|]. cbn [json].
      intros Hnil. apply (f_equal length) in Hnil.
      rewrite length_take, length_drop in Hnil. simpl in Hnil.
      assert (¬ K ≤ j) as Hlt by lia. unfold K in Hlt.
      rewrite ceil_div_le in Hlt by lia. lia.
    + by rewrite Hcall.
    + rewrite Hcall. cbn [json].
      rewrite drop_ge; [by rewrite take_nil|].
      apply ceil_div_le; [lia|done].
  - intros Hmore. fold K.
    destruct K as [|K'] eqn:HK.
    { assert (ceil_div (length data) P ≤ 0) as H0 by (fold K; lia).
      apply ceil_div_le in H0; lia. }
    rewrite fmap_seq_shift. cbn [concat]. rewrite length_app.
    rewrite (list_fmap_ext _ (λ k, take cap (drop (P + k * P) data))
               (seq 0 K')).
    + pose proof (short_pages_length data cap P K' P ltac:(lia)).
      rewrite length_take, length_drop. lia.
    + intros ? k ?. unfold compose. do 2 f_equal.
Qed.

(** ** An empty fetch *)

Lemma notebook_after_fetch fuel table env w all_data w1 :
  fetch_all fuel env w = (Ok all_data, w1) →
  notebook fuel table env w =
  (non_track_accidents_df ← row_filter table (DataFrame_of all_data);
   _ ← cell6 non_track_accidents_df;
   mret non_track_accidents_df) env w1.
Proof.
  intros Hfetch. unfold notebook. unfold mbind at 1, M_bind at 1.
  by rewrite Hfetch.
Qed.

(** When the first response is a failure or an empty page nothing is
    fetched; the frame then has no columns at all, cell 4 dies of a
    [KeyError] on the cause-code column, and no file is written. *)
Theorem notebook_dies_on_empty_fetch fuel table env w :
  1 ≤ fuel →
  status_code (call env w limit 1).2 ≠ 200%Z ∨ json (call env w limit 1).2 = [] →
  ∃ w',
    notebook fuel table env w =
      (Raise (KeyError ["primaryaccidentcausecode"%string]), w') ∧
    http_log w' = http_log w ++ [call env w limit 1] ∧
    files w' = files w.
Proof.
  intros Hfuel Hfirst. rewrite call_S in Hfirst.
  assert (∃ w1, fetch_all fuel env w = (Ok [], w1) ∧
                http_log w1 = http_log w ++ [call env w limit 1] ∧
                files w1 = files w) as (w1 & Hfetch & Hlog & Hfiles).
  { unfold fetch_all. rewrite call_S.
    destruct (decide (status_code
                (loop_call env (length (http_log w)) limit 0 0).2 = 200%Z))
      as [Hst|Hst].
    - destruct Hfirst as [?|Hempty]; [done|].
      rewrite (fetch_loop_ends_at env limit 0 fuel 0 [] w);
        [|lia|intros; lia|done..].
      eexists. split; [done|]. done.
    - rewrite (fetch_loop_fails_at env limit 0 fuel 0 [] w);
        [|lia|intros; lia|done].
      eexists. split; [done|]. done. }
  exists w1. split; [|done].
  by rewrite (notebook_after_fetch _ _ _ _ _ _ Hfetch).
Qed.

(** ** What each cell leaves alone *)

Lemma fetch_loop_frame fuel P off acc env w r w' :
  fetch_loop fuel P off acc env w = (r, w') →
  files w' = files w ∧ clock_reads w' = clock_reads w.
Proof.
  revert off acc w. induction fuel as [|fuel IH]; intros off acc w.
  - by intros [= <- <-].
  - loop_step. case_bool_decide.
    + destruct (json _) as [|? ?].
      * by intros [= <- <-].
      * intros Hrun. by apply IH in Hrun as [-> ->].
    + by intros [= <- <-].
Qed.

(** The exact run of cell 5 once the conversion goes through. *)
Lemma cell5_run df env w parsed :
  "date" ∈ columns df →
  parse_dates env ((λ ir, cell ir.2 "date") <$> rows df) = Some parsed →
  length parsed = length (rows df) →
  cell5 df env w =
  (Ok {| columns := columns df;
         rows := filter (λ ir, recent (clock env (clock_reads w)) ir = true)
                   (zip_with set_date (rows df) parsed) |},
   {| http_log := http_log w;
      clock_reads := S (clock_reads w);
      stdout := stdout w ++
        [DateRange
           (series_min ((λ ir, cell ir.2 "date") <$>
              filter (λ ir, recent (clock env (clock_reads w)) ir = true)
                (zip_with set_date (rows df) parsed)))
           (series_max ((λ ir, cell ir.2 "date") <$>
              filter (λ ir, recent (clock env (clock_reads w)) ir = true)
                (zip_with set_date (rows df) parsed)))];
      files := files w |}).
Proof.
  intros Hdate Hparse Hlen.
  unfold cell5, mbind, M_bind, ask, lift_res.
  rewrite (proj2 (getitem_Ok df "date" _) (conj Hdate eq_refl)).
  unfold to_datetime. rewrite Hparse.
  unfold setitem. rewrite length_fmap, decide_True by done.
  rewrite decide_True by done. rewrite zip_with_fmap_r.
  unfold datetime_today. cbn [clock_reads].
  fold set_date.
  change (zip_with (λ ir t, (ir.1, <["date"%string:=timestamp_cell t]> ir.2)))
    with (zip_with set_date).
  rewrite (proj2 (recency_filter_Ok (clock env (clock_reads w))
                    {| columns := columns df;
                       rows := zip_with set_date (rows df) parsed |} _)
             (conj Hdate eq_refl)).
  cbn [rows columns].
  unfold getitem. cbn [rows columns]. rewrite decide_True by done.
  reflexivity.
Qed.

Lemma cell5_frame df env w r w' :
  cell5 df env w = (r, w') → files w' = files w.
Proof.
  unfold cell5, mbind, M_bind, ask, lift_res.
  destruct (getitem df "date") as [col| |]; [|by intros [= <- <-]..].
  destruct (to_datetime env col) as [vals| |]; [|by intros [= <- <-]..].
  destruct (setitem df "date" vals) as [df1| |]; [|by intros [= <- <-]..].
  unfold datetime_today.
  destruct (recency_filter _ df1) as [df2| |]; [|by intros [= <- <-]..].
  destruct (getitem df2 "date") as [col2| |]; by intros [= <- <-].
Qed.

Lemma row_filter_frame table df env w r w' :
  row_filter table df env w = (r, w') → files w' = files w.
Proof.
  unfold row_filter, mbind, M_bind, lift_res.
  destruct (cell4 table df) as [mid| |]; [|by intros [= <- <-]..].
  apply cell5_frame.
Qed.

(** The only file the notebook ever writes is its CSV, and it writes it
    last: a run that does not come to a successful end, whether it raises
    in cell 4 or 5 or never leaves the fetch loop, leaves every file as it
    was, a CSV of an earlier run included. *)
Theorem notebook_failure_keeps_files fuel table env w r w' :
  notebook fuel table env w = (r, w') →
  (∀ p, p ≠ csv_path → files w' !! p = files w !! p) ∧
  ((∀ out, r ≠ Ok out) → files w' = files w).
Proof.
  unfold notebook. unfold mbind at 1, M_bind at 1.
  destruct (fetch_all fuel env w) as [rf w0] eqn:Hfetch.
  apply fetch_loop_frame in Hfetch as [Hf0 _].
  destruct rf as [all_data| |];
    [|intros [= <- <-]; by rewrite Hf0..].
  unfold mbind at 1, M_bind at 1.
  destruct (row_filter table _ env w0) as [rr w1] eqn:Hfilter.
  apply row_filter_frame in Hfilter as Hf1.
  destruct rr as [out| |];
    [|intros [= <- <-]; by rewrite Hf1, Hf0..].
  unfold mbind, M_bind, cell6, ask, write_file, mret, M_ret.
  intros [= <- <-]. cbn [files]. split.
  - intros p Hp. rewrite lookup_insert_ne by done. by rewrite Hf1, Hf0.
  - intros Hno. by destruct (Hno out).
Qed.

(** ** Dates that do not parse *)

(** On a frame with a [date] column, cell 5 raises a parser error exactly
    when [pd.to_datetime] rejects the column, and then it has done nothing
    else: the clock was not read, nothing was printed, no file changed. *)
Theorem cell5_parser_error df env w :
  "date" ∈ columns df →
  (parse_dates env ((λ ir, cell ir.2 "date") <$> rows df) = None →
   cell5 df env w = (Raise ParserError, w)) ∧
  (∀ w', cell5 df env w = (Raise ParserError, w') →
         parse_dates env ((λ ir, cell ir.2 "date") <$> rows df) = None ∧
         w' = w).
Proof.
  intros Hdate.
  assert (parse_dates env ((λ ir, cell ir.2 "date") <$> rows df) = None →
          cell5 df env w = (Raise ParserError, w)) as Hraise.
  { intros Hparse. unfold cell5, mbind, M_bind, ask, lift_res.
    rewrite (proj2 (getitem_Ok df "date" _) (conj Hdate eq_refl)).
    unfold to_datetime. by rewrite Hparse. }
  split; [done|]. intros w' Hrun.
  destruct (parse_dates env _) as [parsed|] eqn:Hparse.
  - exfalso.
    destruct (decide (length parsed = length (rows df))) as [Hlen|Hlen].
    + by rewrite (cell5_run df env w parsed) in Hrun.
    + unfold cell5, mbind, M_bind, ask, lift_res in Hrun.
      rewrite (proj2 (getitem_Ok df "date" _) (conj Hdate eq_refl)) in Hrun.
      unfold to_datetime in Hrun. rewrite Hparse in Hrun.
      unfold setitem in Hrun. rewrite length_fmap in Hrun.
      by rewrite decide_False in Hrun by done.
  - split; [done|]. rewrite Hraise in Hrun by done. by injection Hrun.
Qed.

(** ** The printed date range *)

Lemma elem_of_timestamps col z : z ∈ timestamps col ↔ VTimestamp z ∈ col.
Proof.
  unfold timestamps. rewrite list_elem_of_omap. split.
  - intros (v & Hv & Hz). destruct v; try done. by injection Hz as ->.
  - intros Hz. by exists (VTimestamp z).
Qed.

Lemma foldr_min_spec t ts :
  foldr Z.min t ts ∈ t :: ts ∧ ∀ z, z ∈ t :: ts → (foldr Z.min t ts ≤ z)%Z.
Proof.
  induction ts as [|a ts [Hin Hle]]; simpl.
  - split; [apply list_elem_of_here|].
    intros z Hz. apply list_elem_of_singleton in Hz as ->. lia.
  - split.
    + destruct (Z.min_spec a (foldr Z.min t ts)) as [[_ ->]|[_ ->]].
      * apply list_elem_of_further, list_elem_of_here.
      * apply elem_of_cons in Hin as [->|Hin];
          [apply list_elem_of_here|by do 2 apply list_elem_of_further].
    + intros z Hz. apply elem_of_cons in Hz as [->|Hz].
      * specialize (Hle t (list_elem_of_here _ _)). lia.
      * apply elem_of_cons in Hz as [->|Hz]; [lia|].
        specialize (Hle z (list_elem_of_further _ _ _ Hz)). lia.
Qed.

Lemma foldr_max_spec t ts :
  foldr Z.max t ts ∈ t :: ts ∧ ∀ z, z ∈ t :: ts → (z ≤ foldr Z.max t ts)%Z.
Proof.
  induction ts as [|a ts [Hin Hle]]; simpl.
  - split; [apply list_elem_of_here|].
    intros z Hz. apply list_elem_of_singleton in Hz as ->. lia.
  - split.
    + destruct (Z.max_spec a (foldr Z.max t ts)) as [[_ ->]|[_ ->]].
      * apply elem_of_cons in Hin as [->|Hin];
          [apply list_elem_of_here|by do 2 apply list_elem_of_further].
      * apply list_elem_of_further, list_elem_of_here.
    + intros z Hz. apply elem_of_cons in Hz as [->|Hz].
      * specialize (Hle t (list_elem_of_here _ _)). lia.
      * apply elem_of_cons in Hz as [->|Hz]; [lia|].
        specialize (Hle z (list_elem_of_further _ _ _ Hz)). lia.
Qed.

Lemma series_min_spec col z0 :
  VTimestamp z0 ∈ col →
  ∃ a, series_min col = VTimestamp a ∧ VTimestamp a ∈ col ∧
       ∀ z, VTimestamp z ∈ col → (a ≤ z)%Z.
Proof.
  intros Hz0. apply elem_of_timestamps in Hz0. unfold series_min.
  destruct (timestamps col) as [|t ts] eqn:Hts; [by apply elem_of_nil in Hz0|].
  destruct (foldr_min_spec t ts) as [Hin Hle].
  exists (foldr Z.min t ts). split; [done|]. split.
  - apply elem_of_timestamps. by rewrite Hts.
  - intros z Hz. apply Hle. rewrite <- Hts. by apply elem_of_timestamps.
Qed.

Lemma series_max_spec col z0 :
  VTimestamp z0 ∈ col →
  ∃ b, series_max col = VTimestamp b ∧ VTimestamp b ∈ col ∧
       ∀ z, VTimestamp z ∈ col → (z ≤ b)%Z.
Proof.
  intros Hz0. apply elem_of_timestamps in Hz0. unfold series_max.
  destruct (timestamps col) as [|t ts] eqn:Hts; [by apply elem_of_nil in Hz0|].
  destruct (foldr_max_spec t ts) as [Hin Hle].
  exists (foldr Z.max t ts). split; [done|]. split.
  - apply elem_of_timestamps. by rewrite Hts.
  - intros z Hz. apply Hle. rewrite <- Hts. by apply elem_of_timestamps.
Qed.

Lemma recent_true today ir :
  recent today ir = true ↔
  ∃ z, cell ir.2 "date" = VTimestamp z ∧ (ten_years_ago today ≤ z)%Z.
Proof.
  unfold recent, ge_datetime.
  destruct (cell ir.2 "date") as [|s|n|t].
  - split; [done|]. by intros (? & ? & _).
  - split; [done|]. by intros (? & ? & _).
  - split; [done|]. by intros (? & ? & _).
  - rewrite bool_decide_eq_true. split; [eauto|]. by intros (? & [= <-] & ?).
Qed.

(** When cell 5 keeps at least one row, the two dates it prints are the
    earliest and the latest date of the rows it kept: both occur in the
    result, every kept date lies between them, and the earliest is not
    before the cutoff. *)
Theorem cell5_date_range df env w out w' :
  cell5 df env w = (Ok out, w') →
  rows out ≠ [] →
  ∃ a b,
    stdout w' = stdout w ++ [DateRange (VTimestamp a) (VTimestamp b)] ∧
    (ten_years_ago (clock env (clock_reads w)) ≤ a ≤ b)%Z ∧
    (∀ ir, ir ∈ rows out →
       ∃ t, cell ir.2 "date" = VTimestamp t ∧ (a ≤ t ≤ b)%Z) ∧
    (∃ ir, ir ∈ rows out ∧ cell ir.2 "date" = VTimestamp a) ∧
    (∃ ir, ir ∈ rows out ∧ cell ir.2 "date" = VTimestamp b).
Proof.
  intros Hrun Hne.
  destruct (cell5_Ok _ _ _ _ _ Hrun)
    as (parsed & Hdate & Hparse & Hlen & _ & Hrows & _).
  rewrite (cell5_run df env w parsed) in Hrun by done.
  injection Hrun as <- <-. cbn [rows stdout] in *.
  set (l := filter (λ ir, recent (clock env (clock_reads w)) ir = true)
              (zip_with set_date (rows df) parsed)) in *.
  set (col := (λ ir : nat * record, cell ir.2 "date") <$> l).
  assert (∀ ir, ir ∈ l →
            ∃ z, cell ir.2 "date" = VTimestamp z ∧ VTimestamp z ∈ col ∧
                 (ten_years_ago (clock env (clock_reads w)) ≤ z)%Z) as Hkept.
  { intros ir Hir.
    assert (recent (clock env (clock_reads w)) ir = true) as Hrec
      by (by apply list_elem_of_filter in Hir as [? _]).
    apply recent_true in Hrec as (z & Hz & Hcut). exists z.
    split; [done|]. split; [|done].
    apply list_elem_of_fmap. exists ir. by rewrite Hz. }
  assert (∀ z, VTimestamp z ∈ col → ∃ ir, ir ∈ l ∧ cell ir.2 "date" = VTimestamp z)
    as Hcol.
  { intros z Hz. apply list_elem_of_fmap in Hz as (ir & Hz & Hir). eauto. }
  destruct l as [|ir0 l0] eqn:Hl; [done|].
  destruct (Hkept ir0 (list_elem_of_here _ _)) as (z0 & _ & Hz0 & _).
  destruct (series_min_spec col z0 Hz0) as (a & -> & Ha & Hmin).
  destruct (series_max_spec col z0 Hz0) as (b & -> & Hb & Hmax).
  exists a, b. split; [done|].
  destruct (Hcol a Ha) as (ira & Hira & Hda).
  destruct (Hcol b Hb) as (irb & Hirb & Hdb).
  split; [|split; [|split]].
  - destruct (Hkept ira Hira) as (z & Hz & _ & Hcut).
    rewrite Hda in Hz. injection Hz as <-.
    specialize (Hmin b Hb). lia.
  - intros ir Hir. destruct (Hkept ir Hir) as (z & Hz & Hzc & _).
    exists z. split; [done|]. specialize (Hmin z Hzc).
    specialize (Hmax z Hzc). lia.
  - eauto.
  - eauto.
Qed.

(** ** The window counted in days *)

(** The cutoff keeps the time of day of the run.  When the clock reads
    [tod] past midnight, with [0 < tod] and at most a day, a row stamped at
    midnight [k] days before today is kept exactly when [k] is at most
    3649: rows of the calendar day 3650 days back are dropped, and rows in
    the future are kept. *)
Theorem recency_window_in_days midnight tod k df out ir :
  (0 < tod ≤ day)%Z →
  recency_filter (midnight + tod) df = Ok out →
  ir ∈ rows df →
  cell ir.2 "date" = VTimestamp (midnight - k * day) →
  ir ∈ rows out ↔ (k ≤ 3649)%Z.
Proof.
  intros Htod Hrun Hir Hdate.
  apply recency_filter_Ok in Hrun as [_ ->]. cbn [rows].
  rewrite list_elem_of_filter, recent_true, Hdate.
  unfold ten_years_ago, timedelta, day in *. split.
  - intros [(z & [= <-] & Hz) _]. lia.
  - intros Hk. split; [|done]. eexists. split; [done|]. lia.
Qed.

(** ** More on the exclusion step *)

(** The exclusion step keeps exactly the rows whose cause code is not a key
    of the table; it leaves the columns and the order of the rows alone. *)
Theorem exclusion_keeps_exactly (table : gmap string string) df out :
  exclusion (codes_list table) df = Ok out →
  columns out = columns df ∧
  rows out `sublist_of` rows df ∧
  ∀ ir, ir ∈ rows out ↔
        ir ∈ rows df ∧
        ∀ s, cell ir.2 "primaryaccidentcausecode" = VStr s → table !! s = None.
Proof.
  intros Hex. apply exclusion_Ok in Hex as [_ ->]. cbn [rows columns].
  split; [done|]. split; [apply sublist_filter|].
  intros ir. rewrite list_elem_of_filter, not_excluded_true.
  split; intros [H1 H2].
  - split; [done|]. intros s Hs. specialize (H1 s Hs).
    rewrite elem_of_codes_list in H1. by apply eq_None_not_Some.
  - split; [|done]. intros s Hs. rewrite elem_of_codes_list.
    rewrite (H2 s Hs). by intros [? ?].
Qed.

Lemma not_excluded_app c1 c2 ir :
  not_excluded (c1 ++ c2) ir = true ↔
  not_excluded c2 ir = true ∧ not_excluded c1 ir = true.
Proof.
  rewrite !not_excluded_true. split.
  - intros H. split; intros s Hs Hin; apply (H s Hs), elem_of_app; auto.
  - intros [H2 H1] s Hs Hin. apply elem_of_app in Hin as [Hin|Hin].
    + by apply (H1 s Hs).
    + by apply (H2 s Hs).
Qed.

(** Excluding by one code list and then by another is excluding by both at
    once; in particular excluding twice by the same list changes nothing
    more. *)
Theorem exclusion_compose c1 c2 df mid :
  exclusion c1 df = Ok mid →
  exclusion c2 mid = exclusion (c1 ++ c2) df ∧
  exclusion c1 mid = Ok mid.
Proof.
  intros Hex. apply exclusion_Ok in Hex as [Hcol ->].
  set (mid := {| columns := columns df;
                 rows := filter (λ ir, not_excluded c1 ir = true) (rows df) |}).
  assert (∀ c, exclusion c mid =
               Ok {| columns := columns mid;
                     rows := filter (λ ir, not_excluded c ir = true)
                               (rows mid) |}) as Hmid
    by (intros c; by apply exclusion_Ok).
  assert (exclusion (c1 ++ c2) df =
            Ok {| columns := columns df;
                  rows := filter (λ ir, not_excluded (c1 ++ c2) ir = true)
                            (rows df) |}) as ->
    by by apply exclusion_Ok.
  rewrite !Hmid. unfold mid. cbn [rows columns].
  rewrite !list_filter_filter. split; do 2 f_equal.
  - apply list_filter_iff. intros ir. by rewrite not_excluded_app.
  - apply list_filter_iff. intros ir. tauto.
Qed.

(** ** What the filtered frame holds *)


Lemma row_filter_world table df env w out w1 :
  row_filter table df env w = (Ok out, w1) →
  http_log w1 = http_log w ∧
  clock_reads w1 = S (clock_reads w) ∧
  (∃ msg, stdout w1 = stdout w ++ [msg]) ∧
  files w1 = files w.
Proof.
  unfold row_filter, mbind, M_bind, lift_res.
  destruct (cell4 table df) as [mid| |]; [|done..].
  intros Hrun. apply cell5_Ok in Hrun as (_ & _ & _ & _ & _ & _ & ? & ? & ? & ?).
  done.
Qed.

(** The ways the row filter can go.  When a projected column is missing
    from the frame it dies of a [KeyError] before anything else happens.
    With every column present, when [pd.to_datetime] rejects the [date]
    cells of the rows that passed the exclusion it dies of a parser error,
    still before the clock is read.  And whenever it succeeds, every
    projected column was in the frame and the conversion was accepted, with
    one value for each of those rows. *)
Theorem row_filter_outcomes table df env w :
  ((∃ c, c ∈ features_to_analyze ∧ c ∉ columns df) →
   ∃ missing, row_filter table df env w = (Raise (KeyError missing), w)) ∧
  (features_to_analyze ⊆ columns df →
   parse_dates env
     ((λ ir, cell ir.2 "date")
        <$> filter (λ ir, not_excluded (codes_list table) ir = true) (rows df))
     = None →
   row_filter table df env w = (Raise ParserError, w)) ∧
  (∀ out w',
     row_filter table df env w = (Ok out, w') →
     features_to_analyze ⊆ columns df ∧
     ∃ parsed,
       parse_dates env
         ((λ ir, cell ir.2 "date")
            <$> filter (λ ir, not_excluded (codes_list table) ir = true)
                  (rows df))
         = Some parsed ∧
       length parsed =
         length (filter (λ ir, not_excluded (codes_list table) ir = true)
                   (rows df))).
Proof.
  set (kept := filter (λ ir, not_excluded (codes_list table) ir = true)
                 (rows df)).
  assert ((λ ir : nat * record, cell ir.2 "date")
            <$> (project_row features_to_analyze <$> kept) =
          (λ ir : nat * record, cell ir.2 "date") <$> kept) as Hdates.
  { rewrite <- list_fmap_compose. apply list_fmap_ext. intros ? ir _.
    unfold compose. apply cell_project_row, features_date. }
  unfold row_filter, mbind, M_bind, lift_res. split; [|split].
  - intros Hmissing.
    apply (proj2 (cell4_Raise table df)) in Hmissing as [missing ->]. eauto.
  - intros Hsub Hparse.
    rewrite (proj2 (cell4_Ok table df _) (conj Hsub eq_refl)). fold kept.
    unfold cell5, mbind, M_bind, ask, lift_res, getitem. cbn [columns rows].
    rewrite decide_True by apply features_date.
    unfold to_datetime. by rewrite Hdates, Hparse.
  - intros out w' Hrun.
    destruct (cell4 table df) as [mid| |] eqn:Hmid; [|done..].
    apply cell4_Ok in Hmid as [Hsub ->].
    apply cell5_Ok in Hrun as (parsed & _ & Hparse & Hlen & _).
    cbn [rows] in Hparse, Hlen. fold kept in Hparse, Hlen.
    rewrite Hdates in Hparse. rewrite length_fmap in Hlen.
    split; [done|]. by exists parsed.
Qed.

(** ** Export *)

(** Writing the CSV replaces whatever the path held: after two exports the
    file is the second frame's alone, the world is the one a single export
    of the second frame would have left, and exporting the same frame again
    changes nothing. *)
Theorem cell6_overwrites df1 df2 env w :
  ∃ w1 w2,
    cell6 df1 env w = (Ok tt, w1) ∧
    cell6 df2 env w1 = (Ok tt, w2) ∧
    files w2 !! csv_path = Some (to_csv (format_value env) false df2) ∧
    cell6 df2 env w = (Ok tt, w2) ∧
    cell6 df2 env w2 = (Ok tt, w2).
Proof.
  unfold cell6, mbind, M_bind, ask, write_file. do 2 eexists.
  split; [reflexivity|]. split; [reflexivity|]. cbn.
  split; [apply lookup_insert_eq|].
  rewrite !insert_insert_eq. done.
Qed.

(** ** The notebook from end to end *)

Lemma fetch_loop_fails_at_call env w P K fuel :
  1 ≤ K → K ≤ fuel →
  (∀ k, 1 ≤ k < K →
     status_code (call env w P k).2 = 200%Z ∧ json (call env w P k).2 ≠ []) →
  status_code (call env w P K).2 ≠ 200%Z →
  fetch_loop fuel P 0 [] env w =
    (Ok (concat ((λ k, json (call env w P k).2) <$> seq 1 (K - 1))),
     add_stdout (add_calls w (call env w P <$> seq 1 K))
       [FetchFailed (status_code (call env w P K).2)]).
Proof.
  intros HK Hfuel Hgood Hbad.
  destruct K as [|K]; [lia|]. rewrite call_S in Hbad.
  rewrite calls_seq, pages_seq, call_S. replace (S K - 1) with K by lia.
  rewrite (fetch_loop_fails_at env P K fuel 0 [] w); [done|lia| |done].
  intros j Hj. rewrite <- call_S. apply Hgood. lia.
Qed.

(** A failed request does not stop the notebook.  When call K fails after
    K-1 good pages, cells 4 to 6 run on the records fetched so far; if the
    row filter accepts them, the run ends successfully with a CSV made of
    this partial data, and the printed status is the only trace of the
    failure. *)
Theorem notebook_exports_partial_data fuel table env w K out w2 :
  1 ≤ K → K ≤ fuel →
  (∀ k, 1 ≤ k < K →
     status_code (call env w limit k).2 = 200%Z ∧
     json (call env w limit k).2 ≠ []) →
  status_code (call env w limit K).2 ≠ 200%Z →
  row_filter table
    (DataFrame_of (concat ((λ k, json (call env w limit k).2) <$> seq 1 (K - 1))))
    env
    (add_stdout (add_calls w (call env w limit <$> seq 1 K))
       [FetchFailed (status_code (call env w limit K).2)])
    = (Ok out, w2) →
  ∃ w3,
    notebook fuel table env w = (Ok out, w3) ∧
    files w3 !! csv_path = Some (to_csv (format_value env) false out) ∧
    FetchFailed (status_code (call env w limit K).2) ∈ stdout w3.
Proof.
  intros HK Hfuel Hgood Hbad Hfilter.
  pose proof (fetch_loop_fails_at_call env w limit K fuel HK Hfuel Hgood Hbad)
    as Hfetch.
  rewrite (notebook_after_fetch _ _ _ _ _ _ Hfetch).
  unfold mbind at 1, M_bind at 1. rewrite Hfilter.
  apply row_filter_world in Hfilter as (_ & _ & [msg Hout] & _).
  unfold mbind, M_bind, cell6, ask, write_file, mret, M_ret.
  eexists. split; [reflexivity|]. cbn [files stdout]. split.
  - apply lookup_insert_eq.
  - rewrite Hout. cbn [stdout add_stdout].
    apply elem_of_app. left. apply elem_of_app. right.
    apply list_elem_of_here.
Qed.

(** A successful run from end to end.  The CSV has the 21-column header
    and one line for each row of the filtered frame.  The rows come in the
    order of the fetch, and the row labelled i comes from the record fetched
    at position i: if that record's cause code is a string it is not a key
    of the table, its date converted to a timestamp at or after the cutoff,
    the single clock reading of the run minus 3650 days, and on every other
    projected column the row holds the string the record holds there, and
    null where the record holds null or nothing. *)
Theorem notebook_end_to_end fuel table env w out w' :
  notebook fuel table env w = (Ok out, w') →
  ∃ all_data body,
    (fetch_all fuel env w).1 = Ok all_data ∧
    files w' !! csv_path = Some (features_to_analyze :: body) ∧
    length body = length (rows out) ∧
    clock_reads w' = S (clock_reads w) ∧
    (rows out).*1 `sublist_of` seq 0 (length all_data) ∧
    ∀ i (r' : record),
      (i, r') ∈ rows out →
      ∃ (r : record) t,
        all_data !! i = Some r ∧
        (∀ s, cell r "primaryaccidentcausecode" = VStr s → table !! s = None) ∧
        cell r' "date" = VTimestamp t ∧
        (ten_years_ago (clock env (clock_reads w)) ≤ t)%Z ∧
        ∀ c, c ∈ features_to_analyze → c ≠ "date"%string →
             (∀ s, cell r c = VStr s → cell r' c = VStr s) ∧
             (cell r c = VNull → cell r' c = VNull).
Proof.
  unfold notebook. unfold mbind at 1, M_bind at 1.
  destruct (fetch_all fuel env w) as [[all_data| |] w0] eqn:Hfetch; [|done..].
  apply fetch_loop_frame in Hfetch as [_ Hclock].
  unfold mbind at 1, M_bind at 1.
  destruct (row_filter table _ env w0) as [[out'| |] w1] eqn:Hfilter; [|done..].
  unfold mbind, M_bind, cell6, ask, write_file, mret, M_ret.
  intros [= <- <-].
  exists all_data,
    ((λ ir : nat * record,
        (λ c, format_value env (cell ir.2 c)) <$> features_to_analyze)
       <$> rows out').
  split; [done|].
  destruct (row_filter_world _ _ _ _ _ _ Hfilter) as (_ & Hreads & _ & _).
  destruct (row_filter_Ok _ _ _ _ _ _ Hfilter)
    as (_ & Hcols & parsed & _ & Hrows & _).
  cbn [files clock_reads]. split; [|split; [|split; [|split]]].
  - rewrite lookup_insert_eq. unfold to_csv. by rewrite Hcols.
  - by rewrite length_fmap.
  - by rewrite Hreads, Hclock.
  - rewrite <- DataFrame_of_index. by eapply row_filter_index_sublist.
  - intros i r' Hin.
    assert (recent (clock env (clock_reads w0)) (i, r') = true) as Hrec.
    { rewrite Hrows in Hin. by apply list_elem_of_filter in Hin as [? _]. }
    apply recent_true in Hrec as (t & Ht & Hcut). rewrite Hclock in Hcut.
    destruct (row_filter_row_origin _ _ _ _ _ _ _ Hfilter Hin)
      as ([j r] & t' & Hr & Hne & Heq).
    unfold set_date, project_row in Heq. cbn [fst snd] in Heq.
    injection Heq as -> Hr'. exists r, t.
    split; [by apply DataFrame_of_rows|]. split.
    { intros s Hs. rewrite not_excluded_true in Hne. specialize (Hne s Hs).
      rewrite elem_of_codes_list in Hne. by apply eq_None_not_Some. }
    split; [done|]. split; [done|].
    intros c Hc Hdate.
    assert (cell r' c = cell r c) as ->; [|done].
    rewrite Hr'. unfold cell.
    rewrite lookup_insert_ne by done.
    fold (cell (filter (λ kv, kv.1 ∈ features_to_analyze) r) c).
    fold (cell r c). by rewrite cell_restrict, decide_True.
Qed.
(** ** These properties on the sample runs *)

(** A run known to have succeeded is the pair of its frame and its world. *)
Lemma run_eta (x : res DataFrame * World) :
  (if x.1 is Ok _ then true else false) = true →
  x = (Ok (frame_of x.1), x.2).
Proof. destruct x as [[?| |] ?]; done. Qed.

Lemma fetch_result_is_pages_received_witness :
  ∃ K, 1 ≤ K ≤ 5 ∧
    sample_all_data =
      concat ((λ k, json (call sample_env sample_world 3 k).2) <$> seq 1 (K - 1)).
Proof.
  destruct (fetch_result_is_pages_received sample_env sample_world 3 5
              sample_all_data
              (fetch_loop 5 3 0 [] sample_env sample_world).2)
    as (K & HK & _ & _ & _ & Hd & _).
  { reflexivity. }
  exists K. split; [exact HK|exact Hd].
Defined.

Lemma fetch_completes_at_first_empty_page_witness :
  fetch_loop 5 3 0 [] sample_env sample_world =
    (Ok (concat ((λ k, json (call sample_env sample_world 3 k).2) <$> seq 1 2)),
     add_calls sample_world (call sample_env sample_world 3 <$> seq 1 3)).
Proof.
  apply (fetch_completes_at_first_empty_page sample_env sample_world 3 3 5).
  - lia.
  - lia.
  - intros k Hk. assert (k = 1 ∨ k = 2) as [-> | ->] by lia;
      (split; [reflexivity|discriminate]).
  - reflexivity.
  - reflexivity.
Defined.

Lemma fetch_runs_while_pages_come_witness :
  fetch_loop 6 limit 0 [] sample_repeating_env sample_world =
    (OutOfFuel,
     add_calls sample_world
       (call sample_repeating_env sample_world limit <$> seq 1 6)).
Proof.
  apply (fetch_runs_while_pages_come sample_repeating_env sample_world limit 6).
  intros k Hk. split; [reflexivity|discriminate].
Defined.

Lemma short_pages_lose_records_witness :
  ∃ d,
    fetch_loop 5 3 0 [] sample_capped_env sample_world =
      (Ok d,
       add_calls sample_world
         (call sample_capped_env sample_world 3 <$> seq 1 (ceil_div 4 3 + 1))) ∧
    length d < 4.
Proof.
  destruct (short_pages_lose_records sample_all_data 2 3 sample_capped_env 5
              sample_world)
    as (d & Hrun & _ & Hlen).
  - lia.
  - lia.
  - reflexivity.
  - vm_compute. lia.
  - exists d. split; [exact Hrun|]. apply Hlen. simpl. lia.
Defined.

Lemma notebook_dies_on_empty_fetch_witness :
  ∃ w',
    notebook 3 sample_table sample_empty_env sample_stale_world =
      (Raise (KeyError ["primaryaccidentcausecode"%string]), w') ∧
    http_log w' =
      http_log sample_stale_world ++
        [call sample_empty_env sample_stale_world limit 1] ∧
    files w' = files sample_stale_world.
Proof.
  apply (notebook_dies_on_empty_fetch 3 sample_table sample_empty_env
           sample_stale_world).
  - lia.
  - right. reflexivity.
Defined.

Lemma notebook_failure_keeps_files_witness :
  files (notebook 5 sample_table sample_unparsable_env sample_stale_world).2 =
  files sample_stale_world.
Proof.
  apply (notebook_failure_keeps_files 5 sample_table sample_unparsable_env
           sample_stale_world
           (notebook 5 sample_table sample_unparsable_env sample_stale_world).1
           (notebook 5 sample_table sample_unparsable_env sample_stale_world).2).
  - reflexivity.
  - intros out.
    assert ((notebook 5 sample_table sample_unparsable_env
               sample_stale_world).1 = Raise ParserError) as ->
      by reflexivity.
    discriminate.
Defined.

Lemma cell5_parser_error_witness :
  cell5 sample_projected sample_unparsable_env sample_world =
    (Raise ParserError, sample_world).
Proof.
  apply (cell5_parser_error sample_projected sample_unparsable_env sample_world).
  - unfold sample_projected. vm_compute. set_solver.
  - reflexivity.
Defined.

Lemma cell5_date_range_witness :
  ∃ a b,
    stdout sample_converted.2 =
      stdout sample_world ++ [DateRange (VTimestamp a) (VTimestamp b)] ∧
    (ten_years_ago sample_today ≤ a ≤ b)%Z.
Proof.
  destruct (cell5_date_range sample_projected sample_env sample_world
              (frame_of sample_converted.1) sample_converted.2)
    as (a & b & Hout & Hab & _).
  - reflexivity.
  - intros Hnil. apply (f_equal length) in Hnil.
    vm_compute in Hnil. discriminate Hnil.
  - exists a, b. split; [exact Hout|exact Hab].
Defined.

Lemma recency_window_in_days_witness :
  (0, {[ "date"%string := VTimestamp (20067 * day - 3650 * day) ]})
    ∈ rows (frame_of (recency_filter sample_today sample_midnight_frame))
  ↔ (3650 ≤ 3649)%Z.
Proof.
  apply (recency_window_in_days (20067 * day) 43200000000 3650
           sample_midnight_frame).
  - vm_compute. split; [reflexivity|discriminate].
  - reflexivity.
  - apply list_elem_of_here.
  - reflexivity.
Defined.

Lemma exclusion_keeps_exactly_witness :
  columns sample_kept = columns sample_frame ∧
  rows sample_kept `sublist_of` rows sample_frame.
Proof.
  destruct (exclusion_keeps_exactly sample_table sample_frame sample_kept)
    as (Hcols & Hsub & _).
  - reflexivity.
  - split; [exact Hcols|exact Hsub].
Defined.

Lemma exclusion_compose_witness :
  exclusion ["H302"%string] sample_kept =
    exclusion (codes_list sample_table ++ ["H302"%string]) sample_frame ∧
  exclusion (codes_list sample_table) sample_kept = Ok sample_kept.
Proof.
  apply (exclusion_compose (codes_list sample_table) ["H302"%string]
           sample_frame sample_kept).
  reflexivity.
Defined.


Lemma row_filter_outcomes_witness :
  row_filter sample_table sample_frame sample_unparsable_env sample_world =
    (Raise ParserError, sample_world).
Proof.
  apply (row_filter_outcomes sample_table sample_frame sample_unparsable_env
           sample_world).
  - apply (bool_decide_unpack _). vm_compute. exact I.
  - reflexivity.
Defined.

Lemma notebook_exports_partial_data_witness :
  ∃ w3,
    notebook 3 sample_table sample_down_env sample_world =
      (Ok (frame_of sample_partial.1), w3) ∧
    files w3 !! csv_path =
      Some (to_csv (format_value sample_down_env) false
              (frame_of sample_partial.1)) ∧
    FetchFailed (status_code (call sample_down_env sample_world limit 2).2)
      ∈ stdout w3.
Proof.
  apply (notebook_exports_partial_data 3 sample_table sample_down_env
           sample_world 2 (frame_of sample_partial.1) sample_partial.2).
  - lia.
  - lia.
  - intros k Hk. assert (k = 1) as -> by lia.
    split; [reflexivity|discriminate].
  - vm_compute. discriminate.
  - reflexivity.
Defined.

Lemma notebook_end_to_end_witness :
  ∃ all_data body,
    (fetch_all 5 sample_env sample_world).1 = Ok all_data ∧
    files sample_notebook.2 !! csv_path = Some (features_to_analyze :: body) ∧
    length body = length (rows (frame_of sample_notebook.1)) ∧
    clock_reads sample_notebook.2 = 1.
Proof.
  destruct (notebook_end_to_end 5 sample_table sample_env sample_world
              (frame_of sample_notebook.1) sample_notebook.2)
    as (all_data & body & Hfetch & Hfile & Hlen & Hreads & _).
  - apply (run_eta sample_notebook). vm_compute. reflexivity.
  - exists all_data, body. split; [exact Hfetch|].
    split; [exact Hfile|]. split; [exact Hlen|exact Hreads].
Defined.
